(** * Emotive voice orchestration: directive table, frame processor and
    dialogue-turn synchronisation

  Two pieces of the repository are embedded here.

  - [docs/plans/roleplay-coaching-prd.md], the Python of
    [generate_elevenlabs_config] and [EmotiveTTSProcessor.process_frame]
    (module [Emotive]);
  - [ginger_rp/src/hooks/usePipecatSync.ts], the event handlers that keep
    the stores in step with the voice session (module [Sync]).

  Python floats are read as the rationals their decimal literals denote:
  the code only compares them, multiplies by a constant and takes a
  minimum.  Module [Binary64] repeats the comparisons on IEEE 754 doubles for
  the boundary cases. *)

From Stdlib Require Import QArith List String Ascii Bool Arith NArith Lia PrimFloat.
Import ListNotations.

Local Open Scope string_scope.
Local Open Scope list_scope.

(** ** Python values *)

Module Py.

(** The outcome of an expression that may raise. *)
Inductive result (A : Type) : Type :=
| Ok (a : A)
| KeyError (key : string).
Arguments Ok {A} a.
Arguments KeyError {A} key.

Definition bind {A B : Type} (r : result A) (k : A -> result B) : result B :=
  match r with
  | Ok a => k a
  | KeyError key => KeyError key
  end.

Definition raises {A : Type} (r : result A) : bool :=
  match r with
  | Ok _ => false
  | KeyError _ => true
  end.

(** What a dictionary needs of its keys. *)
Class Key (K : Type) : Type := {
  key_eqb : K -> K -> bool;
  key_repr : K -> string
}.

(** A dictionary literal, in the order it is written. *)
Definition dict (K V : Type) : Type := list (K * V).

(** [d.get(k)] *)
Fixpoint get {K V : Type} `{Key K} (d : dict K V) (k : K) : option V :=
  match d with
  | [] => None
  | (k', v) :: rest => if key_eqb k' k then Some v else get rest k
  end.

(** [d.get(k, default)] *)
Definition get_default {K V : Type} `{Key K} (d : dict K V) (k : K) (default : V) : V :=
  match get d k with
  | Some v => v
  | None => default
  end.

(** [d[k]] *)
Definition subscript {K V : Type} `{Key K} (d : dict K V) (k : K) : result V :=
  match get d k with
  | Some v => Ok v
  | None => KeyError (key_repr k)
  end.

Definition keys {K V : Type} (d : dict K V) : list K := map fst d.

(** [a < b] on floats *)
Definition lt (a b : Q) : bool := negb (Qle_bool b a).

(** [a > b] on floats *)
Definition gt (a b : Q) : bool := lt b a.

(** [min(a, b)]: the first argument unless the second is smaller. *)
Definition min (a b : Q) : Q := if lt b a then b else a.

End Py.

Notation "x <- r ;; k" := (Py.bind r (fun x => k))
(at level 61, r at next level, right associativity).

#[global] Instance string_Key : Py.Key string :=
{| Py.key_eqb := String.eqb; Py.key_repr := fun s => s |}.

(** ** The emotive TTS processor *)

Module Emotive.

(** [PrimaryEmotion].  The plan imports the enumeration and does not show its
    declaration; the seven members below are the ones the table is keyed by,
    and [OTHER v] stands for any further value a state may carry, equal to none
    of the seven. *)
Inductive PrimaryEmotion : Type :=
| JOY | SADNESS | ANGER | FEAR | DISGUST | SURPRISE | NEUTRAL
| OTHER (value : string).

Definition value (e : PrimaryEmotion) : string :=
  match e with
  | JOY => "joy" | SADNESS => "sadness" | ANGER => "anger" | FEAR => "fear"
  | DISGUST => "disgust" | SURPRISE => "surprise" | NEUTRAL => "neutral"
  | OTHER v => v
  end.

Definition PrimaryEmotion_eqb (a b : PrimaryEmotion) : bool :=
  match a, b with
  | JOY, JOY | SADNESS, SADNESS | ANGER, ANGER | FEAR, FEAR
  | DISGUST, DISGUST | SURPRISE, SURPRISE | NEUTRAL, NEUTRAL => true
  | OTHER v, OTHER w => String.eqb v w
  | _, _ => false
  end.

#[global] Instance PrimaryEmotion_Key : Py.Key PrimaryEmotion :=
  {| Py.key_eqb := PrimaryEmotion_eqb; Py.key_repr := value |}.

(** The members the directive table is keyed by. *)
Definition mapped_emotions : list PrimaryEmotion :=
  [JOY; SADNESS; ANGER; FEAR; DISGUST; SURPRISE; NEUTRAL].

Definition intensity_levels : list string := ["low"; "medium"; "high"].

(** Modelled from the spec: the plan does not show the declaration of the
    body state; the spec lists these four fields, of which the code reads
    [energy] only. *)
Record BodyState : Type := {
  energy : Q;
  tension : Q;
  valence : Q;
  arousal : Q
}.

Record EmotiveVoiceState : Type := {
  primary_emotion : PrimaryEmotion;
  intensity : Q;
  body_state : option BodyState
}.

(** One entry of the table: the four keys every preset literal has. *)
Record VoiceSettings : Type := {
  stability : Q;
  similarity_boost : Q;
  style : Q;
  use_speaker_boost : bool
}.

Definition preset (st sb sy : Q) (b : bool) : VoiceSettings :=
  {| stability := st; similarity_boost := sb; style := sy; use_speaker_boost := b |}.

(** [preset["style"] = v] *)
Definition set_style (p : VoiceSettings) (v : Q) : VoiceSettings :=
  {| stability := stability p; similarity_boost := similarity_boost p;
     style := v; use_speaker_boost := use_speaker_boost p |}.

(** The dictionary the function returns: [{"voice_settings": preset}]. *)
Record Config : Type := { voice_settings : VoiceSettings }.

Definition emotion_presets : Py.dict PrimaryEmotion (Py.dict string VoiceSettings) :=
  [ (JOY,
     [ ("low", preset 0.5 0.75 0.3 false);
       ("medium", preset 0.3 0.75 0.6 true);
       ("high", preset 0.2 0.7 0.8 true) ]);
    (SADNESS,
     [ ("low", preset 0.6 0.8 0.2 false);
       ("medium", preset 0.7 0.8 0.3 false);
       ("high", preset 0.8 0.85 0.4 false) ]);
    (ANGER,
     [ ("low", preset 0.4 0.75 0.5 true);
       ("medium", preset 0.2 0.7 0.8 true);
       ("high", preset 0.1 0.65 0.9 true) ]);
    (FEAR,
     [ ("low", preset 0.5 0.75 0.4 false);
       ("medium", preset 0.4 0.75 0.5 true);
       ("high", preset 0.3 0.7 0.6 true) ]);
    (DISGUST,
     [ ("low", preset 0.6 0.8 0.3 false);
       ("medium", preset 0.5 0.8 0.4 false);
       ("high", preset 0.4 0.75 0.5 false) ]);
    (SURPRISE,
     [ ("low", preset 0.4 0.75 0.5 true);
       ("medium", preset 0.3 0.7 0.7 true);
       ("high", preset 0.2 0.65 0.8 true) ]);
    (NEUTRAL,
     [ ("low", preset 0.5 0.75 0.0 false);
       ("medium", preset 0.5 0.75 0.0 false);
       ("high", preset 0.5 0.75 0.0 false) ]) ].

(** The [if]/[elif]/[else] that names the preset of an intensity. *)
Definition intensity_level (intensity : Q) : string :=
  if Py.lt intensity 0.35 then "low"
  else if Py.lt intensity 0.7 then "medium"
  else "high".

(** The [lookup] of the spec: [emotion_presets[emotion][level]], the table
    read with no default. *)
Definition lookup (emotion : PrimaryEmotion) (level : string) : Py.result VoiceSettings :=
  by_level <- Py.subscript emotion_presets emotion ;;
  Py.subscript by_level level.

(** The block under [if state.body_state:]: energy acts on [style]. *)
Definition apply_body_state (p : VoiceSettings) (body : option BodyState) : VoiceSettings :=
  match body with
  | Some b =>
      if Py.gt (energy b) 0.7 then set_style p (Py.min 1.0 (style p * 1.2))
      else if Py.lt (energy b) 0.3 then set_style p (style p * 0.7)
      else p
  | None => p
  end.

Definition generate_elevenlabs_config (state : EmotiveVoiceState) : Py.result Config :=
  let level := intensity_level (intensity state) in
  default <- Py.subscript emotion_presets NEUTRAL ;;
  p <- Py.subscript (Py.get_default emotion_presets (primary_emotion state) default) level ;;
  Py.Ok {| voice_settings := apply_body_state p (body_state state) |}.

(** *** Frames and the processor *)

Inductive FrameDirection : Type := DOWNSTREAM | UPSTREAM.

(** The frame classes [process_frame] tells apart; [OtherFrame] is any frame
    that is none of them. *)
Inductive Frame : Type :=
| LLMFullResponseStartFrame
| LLMFullResponseEndFrame
| TextFrame (text : string)
| TTSTextFrame (text : string)
| OtherFrame (name : string).

(** The attributes of [self] that [process_frame] reads or writes.
    [_update_tts_config] is the optional callback; applied to a config it
    tells whether the awaited call returned ([true]) or raised ([false]). *)
Record Processor : Type := {
  _in_llm_response : bool;
  _emotion_applied_for_utterance : bool;
  _last_emotion : option string;
  _use_ssml : bool;
  _log_emotions : bool;
  _update_tts_config : option (Config -> bool)
}.

Definition set_response (self : Processor) (in_response applied : bool) : Processor :=
  {| _in_llm_response := in_response;
     _emotion_applied_for_utterance := applied;
     _last_emotion := _last_emotion self;
     _use_ssml := _use_ssml self;
     _log_emotions := _log_emotions self;
     _update_tts_config := _update_tts_config self |}.

Definition set_applied (self : Processor) (applied : bool) : Processor :=
  set_response self (_in_llm_response self) applied.

Definition set_last_emotion (self : Processor) (e : string) : Processor :=
  {| _in_llm_response := _in_llm_response self;
     _emotion_applied_for_utterance := _emotion_applied_for_utterance self;
     _last_emotion := Some e;
     _use_ssml := _use_ssml self;
     _log_emotions := _log_emotions self;
     _update_tts_config := _update_tts_config self |}.

(** What the processor does to the world around it, in order. *)
Inductive Effect : Type :=
| Queried (state : EmotiveVoiceState)
| UpdatedTtsConfig (config : Config) (returned : bool)
| Pushed (frame : Frame) (direction : FrameDirection).

Definition Trace : Type := list Effect.

Definition is_query (e : Effect) : bool :=
  match e with Queried _ => true | _ => false end.

Definition is_update (e : Effect) : bool :=
  match e with UpdatedTtsConfig _ _ => true | _ => false end.

(** How many times the emotional state was fetched, that is how many times a
    directive was computed. *)
Definition queries (t : Trace) : nat := List.length (filter is_query t).

Definition updates (t : Trace) : nat := List.length (filter is_update t).

Definition neutral_state : EmotiveVoiceState :=
  {| primary_emotion := NEUTRAL; intensity := 0; body_state := None |}.

(** Modelled from the spec: [_get_current_state] is called by
    [process_frame] but the plan does not show it.  The external source
    answers [Some state], or [None] when it is unavailable or throws; in that
    case a neutral snapshot of intensity 0 stands in for it. *)
Definition _get_current_state (answer : option EmotiveVoiceState) : EmotiveVoiceState :=
  match answer with
  | Some state => state
  | None => neutral_state
  end.

Definition is_start_or_end (frame : Frame) : bool :=
  match frame with
  | LLMFullResponseStartFrame | LLMFullResponseEndFrame => true
  | _ => false
  end.

(** [isinstance(frame, (TextFrame, TTSTextFrame))] *)
Definition is_text (frame : Frame) : bool :=
  match frame with
  | TextFrame _ | TTSTextFrame _ => true
  | _ => false
  end.

Section Process.

(** The emotional-state source: its answer to the [n]-th request. *)
Variable get_emotional_state : nat -> option EmotiveVoiceState.

(** [generate_ssml_prefix], which the plan calls and does not show. *)
Variable generate_ssml_prefix : EmotiveVoiceState -> bool -> string.

(** The SSML branch: the frame is rebuilt around the prefixed text. *)
Definition with_ssml_prefix (state : EmotiveVoiceState) (use_ssml : bool) (frame : Frame) : Frame :=
  let ssml_prefix := generate_ssml_prefix state use_ssml in
  if String.eqb ssml_prefix "" then frame
  else
    match frame with
    | TTSTextFrame original_text => TTSTextFrame (ssml_prefix ++ " " ++ original_text)%string
    | TextFrame original_text => TextFrame (ssml_prefix ++ " " ++ original_text)%string
    | other => other
    end.

(** The body of [if not self._emotion_applied_for_utterance:]. *)
Definition apply_emotion (self : Processor) (t : Trace) (frame : Frame)
  : Py.result (Processor * Trace * Frame) :=
  let state := _get_current_state (get_emotional_state (queries t)) in
  let t := t ++ [Queried state] in
  let frame := if _use_ssml self then with_ssml_prefix state (_use_ssml self) frame else frame in
  t <- match _update_tts_config self with
       | Some callback =>
           config <- generate_elevenlabs_config state ;;
           Py.Ok (t ++ [UpdatedTtsConfig config (callback config)])
       | None => Py.Ok t
       end ;;
  let self := set_applied self true in
  let current_emotion := value (primary_emotion state) in
  let changed :=
    match _last_emotion self with
    | Some last => negb (String.eqb current_emotion last)
    | None => true
    end in
  let self := if _log_emotions self && changed then set_last_emotion self current_emotion else self in
  Py.Ok (self, t, frame).

(** [process_frame].  The call to the base class comes first and touches none
    of the attributes above; the frame, rebuilt or not, is pushed on last. *)
Definition process_frame (self : Processor) (t : Trace) (frame : Frame) (direction : FrameDirection)
  : Py.result (Processor * Trace) :=
  r <- match direction with
       | DOWNSTREAM =>
           match frame with
           | LLMFullResponseStartFrame => Py.Ok (set_response self true false, t, frame)
           | LLMFullResponseEndFrame => Py.Ok (set_response self false false, t, frame)
           | TextFrame _ | TTSTextFrame _ =>
               if negb (_emotion_applied_for_utterance self)
               then apply_emotion self t frame
               else Py.Ok (self, t, frame)
           | OtherFrame _ => Py.Ok (self, t, frame)
           end
       | UPSTREAM => Py.Ok (self, t, frame)
       end ;;
  let '(self, t, frame) := r in
  Py.Ok (self, t ++ [Pushed frame direction]).

(** The frames of a pipeline run, processed in arrival order. *)
Fixpoint process_frames (self : Processor) (t : Trace) (frames : list (Frame * FrameDirection))
  : Py.result (Processor * Trace) :=
  match frames with
  | [] => Py.Ok (self, t)
  | (frame, direction) :: rest =>
      r <- process_frame self t frame direction ;;
      process_frames (fst r) (snd r) rest
  end.

End Process.

(** One bot utterance as the processor sees it: the response starts, then its
    text arrives in chunks. *)
Definition utterance (chunks : list string) : list (Frame * FrameDirection) :=
  (LLMFullResponseStartFrame, DOWNSTREAM) :: map (fun text => (TextFrame text, DOWNSTREAM)) chunks.

End Emotive.

(** ** The same comparisons on binary64 *)

Module Binary64.

(** The bucketing of [generate_elevenlabs_config] on IEEE 754 doubles, as
    Python evaluates it. *)
#[warnings="-inexact-float"]
Definition intensity_level (intensity : float) : string :=
  if PrimFloat.ltb intensity 0.35 then "low"
  else if PrimFloat.ltb intensity 0.7 then "medium"
  else "high".

(** [min(a, b)] *)
Definition min (a b : float) : float := if PrimFloat.ltb b a then b else a.

(** [min(1.0, preset["style"] * 1.2)] *)
#[warnings="-inexact-float"]
Definition raised_style (style : float) : float := min 1.0 (PrimFloat.mul style 1.2).

End Binary64.

(** ** The mapper and the voice profiles *)

Module Mapper.

Import Emotive.

(** Modelled from the spec: the voice profiles are kept by
    [src/lib/voice-profiles.ts], which is not among the sources.  A profile
    is keyed by its participant; the fields are the ones the spec lists. *)
Record VoiceProfile : Type := {
  participantId : string;
  displayName : string;
  voiceDescription : string;
  typicalEmotions : list string
}.

(** Modelled from the spec: the registry of voice profiles, missing with
    [src/lib/voice-profiles.ts], has one designated profile of the system's own
    persona. *)
Record Registry : Type := {
  selfId : string;
  profiles : Py.dict string VoiceProfile
}.

Definition is_self (registry : Registry) (profile : VoiceProfile) : bool :=
  String.eqb (participantId profile) (selfId registry).

(** Modelled from the spec: the ceiling on the self voice, missing with the
    mapper; the most extreme bucket is never handed to the self profile, the
    one below it stands in. *)
Definition ceiling (registry : Registry) (profile : VoiceProfile) (level : string) : string :=
  if is_self registry profile && String.eqb level "high" then "medium" else level.

(** The bucket a snapshot's directive is drawn from for a given voice. *)
Definition bucket (registry : Registry) (profile : VoiceProfile) (snapshot : EmotiveVoiceState) : string :=
  ceiling registry profile (intensity_level (intensity snapshot)).

(** Modelled from the spec: [computeDirective], missing with the mapper.
    It buckets the intensity under the profile's ceiling, looks the base
    directive up and applies the body modifiers; the table, the bucketing and
    the modifiers are those of [generate_elevenlabs_config]. *)
Definition computeDirective (registry : Registry) (snapshot : EmotiveVoiceState) (profile : VoiceProfile)
  : Py.result VoiceSettings :=
  base <- lookup (primary_emotion snapshot) (bucket registry profile snapshot) ;;
  Py.Ok (apply_body_state base (body_state snapshot)).

End Mapper.

(** ** The session handlers of [usePipecatSync] *)

Module Sync.

(** A JavaScript string: its UTF-16 code units. *)
Definition jsstring : Type := list N.

(** A literal of the source, all of whose characters are ASCII. *)
Definition js (s : string) : jsstring := map N_of_ascii (list_ascii_of_string s).

(** White space and line terminators, what [String.prototype.trim] strips. *)
Definition isWhiteSpace (c : N) : bool :=
  (N.eqb c 9 || N.eqb c 10 || N.eqb c 11 || N.eqb c 12 || N.eqb c 13
   || N.eqb c 32 || N.eqb c 160 || N.eqb c 5760
   || (N.leb 8192 c && N.leb c 8202)
   || N.eqb c 8232 || N.eqb c 8233 || N.eqb c 8239 || N.eqb c 8287
   || N.eqb c 12288 || N.eqb c 65279)%bool.

Fixpoint trimStart (s : jsstring) : jsstring :=
  match s with
  | [] => []
  | c :: rest => if isWhiteSpace c then trimStart rest else s
  end.

Definition trimEnd (s : jsstring) : jsstring := rev (trimStart (rev s)).

(** [s.trim()] *)
Definition trim (s : jsstring) : jsstring := trimEnd (trimStart s).

(** A string in a condition: the empty string alone is falsy. *)
Definition truthy (s : jsstring) : bool :=
  match s with
  | [] => false
  | _ :: _ => true
  end.

(** Every code unit is white space (the empty string included). *)
Definition blank (s : jsstring) : bool := forallb isWhiteSpace s.

Inductive Role : Type := user | assistant.

Inductive VoiceState : Type := listening | processing | idle.

(** The object handed to the conversation store's [addMessage]; a property
    the literal leaves out, or [activeLenses[0]] of an empty array, is [None]. *)
Record ConversationMessage (Lens : Type) : Type := {
  role : Role;
  content : jsstring;
  isVoiceTranscript : option bool;
  lens : option Lens
}.
Arguments role {Lens} _.
Arguments content {Lens} _.
Arguments isVoiceTranscript {Lens} _.
Arguments lens {Lens} _.

(** The object handed to the Ginger store's [addMessage]. *)
Record GingerMessage : Type := {
  gingerRole : Role;
  gingerContent : jsstring
}.

(** The actions and the two buffers of [usePipecatStore] that the hook
    uses.  The store is defined in [@/stores/usePipecatStore], which is not among
    the sources: the handlers are written against this interface. *)
Class PipecatStore (S : Type) : Type := {
  currentUserUtterance : S -> jsstring;
  currentBotUtterance : S -> jsstring;
  setUserSpeaking : bool -> S -> S;
  setBotSpeaking : bool -> S -> S;
  updateCurrentUserUtterance : jsstring -> S -> S;
  updateCurrentBotUtterance : jsstring -> S -> S;
  resetCurrentBotUtterance : S -> S;
  finalizeUserUtterance : S -> S;
  finalizeBotUtterance : S -> S
}.

(** The three stores the handlers act on.  [conversation] and
    [gingerMessages] are the messages handed to the stores' [addMessage], oldest
    first. *)
Record App (S Lens : Type) : Type := {
  pipecat : S;
  voiceState : VoiceState;
  activeLenses : list Lens;
  gingerMessages : list GingerMessage;
  conversation : list (ConversationMessage Lens)
}.
Arguments pipecat {S Lens} _.
Arguments voiceState {S Lens} _.
Arguments activeLenses {S Lens} _.
Arguments gingerMessages {S Lens} _.
Arguments conversation {S Lens} _.

(** The session events the hook registers a handler for.
    [TransportStateChanged] and [LocalAudioLevel] only log and are left out. *)
Inductive RTVIEvent : Type :=
| UserStartedSpeaking
| UserStoppedSpeaking
| BotStartedSpeaking
| BotStoppedSpeaking
| UserTranscript (text : jsstring)
| BotTranscript (text : jsstring)
| BotLlmText (text : jsstring).

Section Handlers.

Context {S Lens : Type} `{PipecatStore S}.

Definition onPipecat (f : S -> S) (app : App S Lens) : App S Lens :=
  {| pipecat := f (pipecat app);
     voiceState := voiceState app;
     activeLenses := activeLenses app;
     gingerMessages := gingerMessages app;
     conversation := conversation app |}.

Definition setVoiceState (v : VoiceState) (app : App S Lens) : App S Lens :=
  {| pipecat := pipecat app;
     voiceState := v;
     activeLenses := activeLenses app;
     gingerMessages := gingerMessages app;
     conversation := conversation app |}.

Definition addConversationMessage (m : ConversationMessage Lens) (app : App S Lens) : App S Lens :=
  {| pipecat := pipecat app;
     voiceState := voiceState app;
     activeLenses := activeLenses app;
     gingerMessages := gingerMessages app;
     conversation := conversation app ++ [m] |}.

Definition addGingerMessage (m : GingerMessage) (app : App S Lens) : App S Lens :=
  {| pipecat := pipecat app;
     voiceState := voiceState app;
     activeLenses := activeLenses app;
     gingerMessages := gingerMessages app ++ [m];
     conversation := conversation app |}.

Definition handleUserStartedSpeaking (app : App S Lens) : App S Lens :=
  let app := onPipecat (setUserSpeaking true) app in
  setVoiceState listening app.

Definition handleUserStoppedSpeaking (app : App S Lens) : App S Lens :=
  let utterance := currentUserUtterance (pipecat app) in
  let app :=
    if truthy (trim utterance)
    then addConversationMessage
           {| role := user; content := trim utterance;
              isVoiceTranscript := Some true; lens := None |} app
    else app in
  let app := onPipecat (setUserSpeaking false) app in
  let app := onPipecat finalizeUserUtterance app in
  setVoiceState processing app.

Definition handleBotStartedSpeaking (app : App S Lens) : App S Lens :=
  let app := onPipecat resetCurrentBotUtterance app in
  onPipecat (setBotSpeaking true) app.

Definition handleBotStoppedSpeaking (app : App S Lens) : App S Lens :=
  let utterance := currentBotUtterance (pipecat app) in
  let app :=
    if truthy (trim utterance)
    then
      let activeLenses := activeLenses app in
      let app := addConversationMessage
                   {| role := assistant; content := trim utterance;
                      isVoiceTranscript := None; lens := hd_error activeLenses |} app in
      addGingerMessage {| gingerRole := assistant; gingerContent := trim utterance |} app
    else app in
  let app := onPipecat (setBotSpeaking false) app in
  let app := onPipecat finalizeBotUtterance app in
  setVoiceState idle app.

Definition handleUserTranscript (text : jsstring) (app : App S Lens) : App S Lens :=
  onPipecat (updateCurrentUserUtterance text) app.

(** Left empty on purpose: the bot's text is taken from [BotLlmText]. *)
Definition handleBotTranscript (text : jsstring) (app : App S Lens) : App S Lens := app.

Definition handleBotLlmText (text : jsstring) (app : App S Lens) : App S Lens :=
  onPipecat (updateCurrentBotUtterance text) app.

(** The handler [client.on] registered for each event. *)
Definition dispatch (app : App S Lens) (event : RTVIEvent) : App S Lens :=
  match event with
  | UserStartedSpeaking => handleUserStartedSpeaking app
  | UserStoppedSpeaking => handleUserStoppedSpeaking app
  | BotStartedSpeaking => handleBotStartedSpeaking app
  | BotStoppedSpeaking => handleBotStoppedSpeaking app
  | UserTranscript text => handleUserTranscript text app
  | BotTranscript text => handleBotTranscript text app
  | BotLlmText text => handleBotLlmText text app
  end.

(** The events of a session, handled one after the other as they arrive. *)
Definition run (events : list RTVIEvent) (app : App S Lens) : App S Lens :=
  fold_left dispatch events app.

End Handlers.

End Sync.

(** ** The store the spec describes *)

Module SpecStore.

Import Sync.

Record PipecatState : Type := {
  isUserSpeaking : bool;
  isBotSpeaking : bool;
  userUtterance : jsstring;
  botUtterance : jsstring
}.

Definition withUserSpeaking (b : bool) (s : PipecatState) : PipecatState :=
  {| isUserSpeaking := b; isBotSpeaking := isBotSpeaking s;
     userUtterance := userUtterance s; botUtterance := botUtterance s |}.

Definition withBotSpeaking (b : bool) (s : PipecatState) : PipecatState :=
  {| isUserSpeaking := isUserSpeaking s; isBotSpeaking := b;
     userUtterance := userUtterance s; botUtterance := botUtterance s |}.

Definition withUserUtterance (text : jsstring) (s : PipecatState) : PipecatState :=
  {| isUserSpeaking := isUserSpeaking s; isBotSpeaking := isBotSpeaking s;
     userUtterance := text; botUtterance := botUtterance s |}.

Definition withBotUtterance (text : jsstring) (s : PipecatState) : PipecatState :=
  {| isUserSpeaking := isUserSpeaking s; isBotSpeaking := isBotSpeaking s;
     userUtterance := userUtterance s; botUtterance := text |}.

(** Modelled from the spec: the actions of [usePipecatStore], which is not
    among the sources.  A user transcript chunk replaces the user buffer
    (last write wins), a bot text chunk is appended to the bot buffer, the bot
    buffer is cleared when the bot starts speaking, and finalizing an utterance
    resets its buffer. *)
#[global] Instance spec_store : PipecatStore PipecatState := {|
  currentUserUtterance := userUtterance;
  currentBotUtterance := botUtterance;
  setUserSpeaking := withUserSpeaking;
  setBotSpeaking := withBotSpeaking;
  updateCurrentUserUtterance := fun text s => withUserUtterance text s;
  updateCurrentBotUtterance := fun text s => withBotUtterance (botUtterance s ++ text) s;
  resetCurrentBotUtterance := withBotUtterance [];
  finalizeUserUtterance := withUserUtterance [];
  finalizeBotUtterance := withBotUtterance []
|}.

(** A session at rest: nobody speaks, both buffers are empty, nothing has
    been recorded yet. *)
Definition initial : App PipecatState string :=
  {| pipecat := {| isUserSpeaking := false; isBotSpeaking := false;
                   userUtterance := []; botUtterance := [] |};
     voiceState := idle;
     activeLenses := [];
     gingerMessages := [];
     conversation := [] |}.

End SpecStore.

(** ** The bot: the TTS service and its emotion callback *)

Module Bot.

Import Emotive.

(** A value held under a key of a settings dictionary. *)
Inductive PyValue : Type :=
| PyFloat (x : Q)
| PyBool (b : bool).

(** A dictionary at run time; each key occurs once. *)
Definition Settings : Type := Py.dict string PyValue.

(** A dictionary in a condition: the empty one alone is falsy. *)
Definition truthy {K V : Type} (d : Py.dict K V) : bool :=
  match d with
  | [] => false
  | _ :: _ => true
  end.

(** The four attributes of the ElevenLabs TTS service that the callback
    assigns. *)
Record TTS : Type := {
  _stability : PyValue;
  _similarity_boost : PyValue;
  _style : PyValue;
  _use_speaker_boost : PyValue
}.

(** The settings the service is constructed with in [run_bot]. *)
Definition initial_tts : TTS :=
  {| _stability := PyFloat 0.5;
     _similarity_boost := PyFloat 0.75;
     _style := PyFloat 0.0;
     _use_speaker_boost := PyBool false |}.

(** [update_tts_emotion(config)], acting on the service [tts] it closes
    over. *)
Definition update_tts_emotion (config : Py.dict string Settings) (tts : TTS) : TTS :=
  let voice_settings := Py.get_default config "voice_settings" [] in
  if truthy voice_settings
  then {| _stability := Py.get_default voice_settings "stability" (PyFloat 0.5);
          _similarity_boost := Py.get_default voice_settings "similarity_boost" (PyFloat 0.75);
          _style := Py.get_default voice_settings "style" (PyFloat 0.0);
          _use_speaker_boost := Py.get_default voice_settings "use_speaker_boost" (PyBool false) |}
  else tts.

(** The dictionary a preset of the table is, key by key. *)
Definition settings_dict (p : VoiceSettings) : Settings :=
  [ ("stability", PyFloat (stability p));
    ("similarity_boost", PyFloat (similarity_boost p));
    ("style", PyFloat (style p));
    ("use_speaker_boost", PyBool (use_speaker_boost p)) ].

(** The dictionary [generate_elevenlabs_config] returns:
    [{"voice_settings": preset}]. *)
Definition config_dict (c : Config) : Py.dict string Settings :=
  [ ("voice_settings", settings_dict (voice_settings c)) ].

(** The service after the pushes of a trace, the processor being constructed
    with [update_tts_config=update_tts_emotion]. *)
Definition tts_after (t : Trace) (tts : TTS) : TTS :=
  fold_left
    (fun tts e =>
       match e with
       | UpdatedTtsConfig config _ => update_tts_emotion (config_dict config) tts
       | _ => tts
       end)
    t tts.

(** The frames pushed on, in order. *)
Definition pushed (t : Trace) : list (Frame * FrameDirection) :=
  flat_map (fun e => match e with Pushed frame direction => [(frame, direction)] | _ => [] end) t.

(** A whole response: its start, its text in chunks, its end. *)
Definition response (chunks : list string) : list (Frame * FrameDirection) :=
  utterance chunks ++ [(LLMFullResponseEndFrame, DOWNSTREAM)].

(** The responses of a session, one after the other. *)
Definition session (responses : list (list string)) : list (Frame * FrameDirection) :=
  flat_map response responses.

(** How a frame may come out of [process_frame]: as it went in, or, for a
    text frame, rebuilt in its class around a non-empty prefix, a space and
    the original text. *)
Definition forwarded (input output : Frame * FrameDirection) : Prop :=
  snd output = snd input
  /\ (fst output = fst input
      \/ exists ssml_prefix,
           ssml_prefix <> ""
           /\ ((exists text, fst input = TextFrame text
                             /\ fst output = TextFrame (ssml_prefix ++ " " ++ text)%string)
               \/ (exists text, fst input = TTSTextFrame text
                                /\ fst output = TTSTextFrame (ssml_prefix ++ " " ++ text)%string))).

(** A variable of the environment in a condition: unset and empty are both
    falsy. *)
Definition set_and_not_empty (v : option string) : bool :=
  match v with
  | Some s => negb (String.eqb s "")
  | None => false
  end.

(** [detect_tts_provider()], [getenv] being [os.getenv]. *)
Definition detect_tts_provider (getenv : string -> option string) : string :=
  if set_and_not_empty (getenv "ELEVENLABS_API_KEY") then "elevenlabs"
  else if set_and_not_empty (getenv "CARTESIA_API_KEY") then "cartesia"
  else "unknown".

End Bot.

(** ** The audio-level logger of [usePipecatSync] *)

Module AudioLevel.

(** The variable [lastLogTime] the handler closes over, and the lines it has
    written to the console: the time and the level of each. *)
Record Logger : Type := {
  lastLogTime : Z;
  lines : list (Z * Q)
}.

Definition start : Logger := {| lastLogTime := 0; lines := [] |}.

(** [handleAudioLevel(level)], [now] being what [Date.now()] answers. *)
Definition handleAudioLevel (logger : Logger) (call : Q * Z) : Logger :=
  let '(level, now) := call in
  if Py.gt level 0.01 && Z.ltb 500 (now - lastLogTime logger)
  then {| lastLogTime := now; lines := lines logger ++ [(now, level)] |}
  else logger.

Definition handleAudioLevels (calls : list (Q * Z)) (logger : Logger) : Logger :=
  fold_left handleAudioLevel calls logger.

(** Each time is more than 500 ms after the one before it, the first one
    after [previous]. *)
Fixpoint spaced (previous : Z) (times : list Z) : Prop :=
  match times with
  | [] => True
  | time :: rest => (500 < time - previous)%Z /\ spaced time rest
  end.

End AudioLevel.

(** ** What a run of the session handlers records *)

Module History.

Import Sync.

(** The events whose handler may hand a message to a store. *)
Definition is_stop (event : RTVIEvent) : bool :=
  match event with
  | UserStoppedSpeaking | BotStoppedSpeaking => true
  | _ => false
  end.

(** The events whose handler calls [setVoiceState]. *)
Definition sets_voice_state (event : RTVIEvent) : bool :=
  match event with
  | UserStartedSpeaking | UserStoppedSpeaking | BotStoppedSpeaking => true
  | _ => false
  end.

Definition is_bot_transcript (event : RTVIEvent) : bool :=
  match event with
  | BotTranscript _ => true
  | _ => false
  end.

(** A text with something in it and no white space at either end. *)
Definition clean (s : jsstring) : bool :=
  truthy s && negb (isWhiteSpace (hd 0%N s)) && negb (isWhiteSpace (last s 0%N)).

(** The assistant's messages of a conversation, as the Ginger store gets them. *)
Definition assistantMessages {Lens : Type} (messages : list (ConversationMessage Lens))
  : list GingerMessage :=
  flat_map
    (fun m =>
       match role m with
       | assistant => [{| gingerRole := assistant; gingerContent := content m |}]
       | user => []
       end)
    messages.

(** The shape of a message the handlers build: a user's is flagged as a voice
    transcript and has no lens, the assistant's has the first active lens and
    no flag. *)
Definition shaped {Lens : Type} (lenses : list Lens) (m : ConversationMessage Lens) : Prop :=
  match role m with
  | user => isVoiceTranscript m = Some true /\ lens m = None
  | assistant => isVoiceTranscript m = None /\ lens m = hd_error lenses
  end.

End History.

(** ** The listeners [usePipecatSync] registers *)

Module Listeners.

(** The events of [RTVIEvent] the hook listens to. *)
Inductive RTVIEvent : Type :=
| TransportStateChanged
| LocalAudioLevel
| UserStartedSpeaking
| UserStoppedSpeaking
| BotStartedSpeaking
| BotStoppedSpeaking
| UserTranscript
| BotTranscript
| BotLlmText.

(** The handlers the effect defines. *)
Inductive Handler : Type :=
| handleTransportState
| handleAudioLevel
| handleUserStartedSpeaking
| handleUserStoppedSpeaking
| handleBotStartedSpeaking
| handleBotStoppedSpeaking
| handleUserTranscript
| handleBotTranscript
| handleBotLlmText.

(** A listener: an event and the function registered for it.  Each run of
    the effect makes its own handler functions, told apart by the number of
    the run. *)
Definition Listener : Type := RTVIEvent * (nat * Handler).

Definition Listener_eq_dec (a b : Listener) : {a = b} + {a <> b}.
Proof. repeat decide equality. Defined.

(** The client, as far as the hook touches it: its listeners, oldest first. *)
Definition Client : Type := list Listener.

(** [client.on(event, handler)] *)
Definition on (event : RTVIEvent) (handler : nat * Handler) (client : Client) : Client :=
  client ++ [(event, handler)].

Fixpoint remove_first (x : Listener) (l : list Listener) : list Listener :=
  match l with
  | [] => []
  | y :: rest => if Listener_eq_dec x y then rest else y :: remove_first x rest
  end.

(** [client.off(event, handler)]: the most recently added instance of the
    listener is removed, if there is one. *)
Definition off (event : RTVIEvent) (handler : nat * Handler) (client : Client) : Client :=
  rev (remove_first (event, handler) (rev client)).

(** The body of the effect for an available client, in its [n]-th run. *)
Definition setup (n : nat) (client : Client) : Client :=
  let client := on TransportStateChanged (n, handleTransportState) client in
  let client := on LocalAudioLevel (n, handleAudioLevel) client in
  let client := on UserStartedSpeaking (n, handleUserStartedSpeaking) client in
  let client := on UserStoppedSpeaking (n, handleUserStoppedSpeaking) client in
  let client := on BotStartedSpeaking (n, handleBotStartedSpeaking) client in
  let client := on BotStoppedSpeaking (n, handleBotStoppedSpeaking) client in
  let client := on UserTranscript (n, handleUserTranscript) client in
  let client := on BotTranscript (n, handleBotTranscript) client in
  on BotLlmText (n, handleBotLlmText) client.

(** The function the effect returns. *)
Definition cleanup (n : nat) (client : Client) : Client :=
  let client := off TransportStateChanged (n, handleTransportState) client in
  let client := off LocalAudioLevel (n, handleAudioLevel) client in
  let client := off UserStartedSpeaking (n, handleUserStartedSpeaking) client in
  let client := off UserStoppedSpeaking (n, handleUserStoppedSpeaking) client in
  let client := off BotStartedSpeaking (n, handleBotStartedSpeaking) client in
  let client := off BotStoppedSpeaking (n, handleBotStoppedSpeaking) client in
  let client := off UserTranscript (n, handleUserTranscript) client in
  let client := off BotTranscript (n, handleBotTranscript) client in
  off BotLlmText (n, handleBotLlmText) client.

End Listeners.

(** * Properties *)

(** ** Comparisons of Python numbers *)

Section Comparisons.

Local Open Scope Q_scope.

Lemma lt_true (a b : Q) : Py.lt a b = true <-> a < b.
Proof.
  unfold Py.lt. rewrite negb_true_iff. split.
  - intro Hle. apply Qnot_le_lt. intro Hba.
    apply Qle_bool_iff in Hba. congruence.
  - intro Hlt. destruct (Qle_bool b a) eqn:Hle; [|reflexivity].
    apply Qle_bool_iff in Hle. exfalso. exact (Qlt_not_le _ _ Hlt Hle).
Qed.

Lemma lt_false (a b : Q) : Py.lt a b = false <-> b <= a.
Proof.
  unfold Py.lt. rewrite negb_false_iff. apply Qle_bool_iff.
Qed.

Lemma min_le_l (a b : Q) : Py.min a b <= a.
Proof.
  unfold Py.min. destruct (Py.lt b a) eqn:Hlt.
  - apply Qlt_le_weak. now apply lt_true.
  - apply Qle_refl.
Qed.

Lemma min_glb (a b c : Q) : c <= a -> c <= b -> c <= Py.min a b.
Proof.
  intros Ha Hb. unfold Py.min. now destruct (Py.lt b a).
Qed.

Lemma min_r (a b : Q) : b < a -> Py.min a b = b.
Proof.
  intro Hlt. unfold Py.min. apply lt_true in Hlt. now rewrite Hlt.
Qed.

Lemma min_l (a b : Q) : a <= b -> Py.min a b = a.
Proof.
  intro Hle. unfold Py.min. apply lt_false in Hle. now rewrite Hle.
Qed.

End Comparisons.

(** ** The directive table *)

Section DirectiveTable.

Import Emotive.
Local Open Scope Q_scope.

(** A value is mapped when it is one of the keys of the table. *)
Lemma keys_emotion_presets : Py.keys emotion_presets = mapped_emotions.
Proof. reflexivity. Qed.

Lemma every_preset_has_three_levels :
  Forall (fun entry => Py.keys (snd entry) = intensity_levels) emotion_presets.
Proof. repeat constructor. Qed.

Lemma table_has_21_entries :
  List.length (flat_map (fun entry => map (pair (fst entry)) (Py.keys (snd entry))) emotion_presets) = 21%nat
  /\ List.length (list_prod mapped_emotions intensity_levels) = 21%nat.
Proof. split; reflexivity. Qed.

Lemma intensity_level_in_levels (i : Q) : In (intensity_level i) intensity_levels.
Proof.
  unfold intensity_level, intensity_levels.
  destruct (Py.lt i 0.35); [now left|].
  destruct (Py.lt i 0.7); [right; now left|right; right; now left].
Qed.

(** What [.get] finds is one of the values of the dictionary. *)
Lemma get_In {K V : Type} `{Py.Key K} (d : Py.dict K V) (k : K) (v : V) :
  Py.get d k = Some v -> In v (map snd d).
Proof.
  induction d as [|[k' v'] rest IH]; simpl; [discriminate|].
  destruct (Py.key_eqb k' k).
  - intro Heq. injection Heq as <-. now left.
  - intro Hrest. right. now apply IH.
Qed.

Lemma subscript_In {K V : Type} `{Py.Key K} (d : Py.dict K V) (k : K) (v : V) :
  Py.subscript d k = Py.Ok v -> In v (map snd d).
Proof.
  unfold Py.subscript. destruct (Py.get d k) as [v'|] eqn:Hget; [|discriminate].
  intro Heq. injection Heq as <-. exact (get_In _ _ _ Hget).
Qed.

Lemma get_default_In {K V : Type} `{Py.Key K} (d : Py.dict K V) (k : K) (default : V) :
  In (Py.get_default d k default) (default :: map snd d).
Proof.
  unfold Py.get_default. destruct (Py.get d k) as [v|] eqn:Hget.
  - right. exact (get_In _ _ _ Hget).
  - now left.
Qed.

(** Every style of the table lies in [[0,1]]. *)
Lemma table_styles_in_range :
  Forall (fun by_level => Forall (fun p => 0 <= style p <= 1) (map snd by_level))
         (map snd emotion_presets).
Proof. repeat constructor; discriminate. Qed.

(** C2. The table has an entry for each of the seven emotions at each of the
    three intensity levels, 21 in all: reading [emotion_presets[e][level]]
    raises no [KeyError], and the [.get] of [generate_elevenlabs_config] finds
    that entry whatever default it is given. *)
Theorem lookup_total (e : PrimaryEmotion) (level : string) :
  In e mapped_emotions -> In level intensity_levels ->
  exists directive,
    lookup e level = Py.Ok directive
    /\ forall default,
         Py.subscript (Py.get_default emotion_presets e default) level = Py.Ok directive.
Proof.
  unfold mapped_emotions, intensity_levels. intros He Hl.
  repeat (destruct He as [<-|He]; [|]); try contradiction;
    repeat (destruct Hl as [<-|Hl]; [|]); try contradiction;
    (eexists; split; [reflexivity|intro; reflexivity]).
Qed.

Lemma lookup_total_witness :
  exists directive,
    lookup ANGER "high" = Py.Ok directive
    /\ forall default,
         Py.subscript (Py.get_default emotion_presets ANGER default) "high" = Py.Ok directive.
Proof.
  apply (lookup_total ANGER "high").
  - simpl. right. right. left. reflexivity.
  - simpl. right. right. left. reflexivity.
Defined.

(** C3. The intensity is bucketed on half-open intervals: below 0.35 is low,
    from 0.35 up to but excluding 0.7 is medium, 0.7 and above is high; so 0.35
    and 0.6999 are medium and 0.7 is high. *)
Theorem intensity_level_boundaries (i : Q) :
  (i < 0.35 -> intensity_level i = "low")
  /\ (0.35 <= i -> i < 0.7 -> intensity_level i = "medium")
  /\ (0.7 <= i -> intensity_level i = "high")
  /\ intensity_level 0.35 = "medium"
  /\ intensity_level 0.6999 = "medium"
  /\ intensity_level 0.7 = "high".
Proof.
  unfold intensity_level. repeat split; try reflexivity.
  - intro Hlow. apply lt_true in Hlow. now rewrite Hlow.
  - intros Hge Hlt. apply lt_false in Hge. apply lt_true in Hlt.
    now rewrite Hge, Hlt.
  - intro Hge.
    assert (Hge' : 0.35 <= i) by (eapply Qle_trans; [|exact Hge]; discriminate).
    apply lt_false in Hge, Hge'. now rewrite Hge, Hge'.
Qed.

Lemma intensity_level_boundaries_witness :
  intensity_level 0.2 = "low"
  /\ intensity_level 0.5 = "medium"
  /\ intensity_level 0.9 = "high".
Proof.
  split; [|split].
  - apply (proj1 (intensity_level_boundaries 0.2)). reflexivity.
  - apply (proj1 (proj2 (intensity_level_boundaries 0.5))); [discriminate|reflexivity].
  - apply (proj1 (proj2 (proj2 (intensity_level_boundaries 0.9)))). discriminate.
Defined.

(** A dictionary keyed by strings has a value under each of its keys. *)
Lemma subscript_key {V : Type} (d : Py.dict string V) (k : string) :
  In k (Py.keys d) -> exists v, Py.subscript d k = Py.Ok v.
Proof.
  unfold Py.subscript.
  induction d as [|[k' v'] rest IH]; simpl; [contradiction|].
  intros [Hhere|Hrest].
  - subst k'. rewrite String.eqb_refl. now exists v'.
  - destruct (String.eqb k' k); [now exists v'|]. now apply IH.
Qed.

Lemma neutral_presets :
  exists default, Py.subscript emotion_presets NEUTRAL = Py.Ok default
                  /\ In default (map snd emotion_presets).
Proof.
  eexists. split; [reflexivity|]. simpl. do 6 right. left. reflexivity.
Qed.

(** [generate_elevenlabs_config] returns for every state: its result is the
    body-state block applied to one entry of the table. *)
Lemma generate_elevenlabs_config_returns (state : EmotiveVoiceState) :
  exists by_level base,
    In by_level (map snd emotion_presets)
    /\ Py.subscript by_level (intensity_level (intensity state)) = Py.Ok base
    /\ generate_elevenlabs_config state
       = Py.Ok {| voice_settings := apply_body_state base (body_state state) |}.
Proof.
  unfold generate_elevenlabs_config.
  destruct neutral_presets as [default [Hdefault Hin]]. rewrite Hdefault. cbn [Py.bind].
  pose (by_level := Py.get_default emotion_presets (primary_emotion state) default).
  assert (Hby : In by_level (map snd emotion_presets)).
  { destruct (get_default_In emotion_presets (primary_emotion state) default) as [Heq|Hthere];
      [unfold by_level; rewrite <- Heq; exact Hin|exact Hthere]. }
  assert (Hkeys : Py.keys by_level = intensity_levels).
  { apply in_map_iff in Hby. destruct Hby as [entry [<- Hentry]].
    exact (proj1 (Forall_forall _ _) every_preset_has_three_levels entry Hentry). }
  destruct (subscript_key by_level (intensity_level (intensity state))) as [base Hbase].
  { rewrite Hkeys. apply intensity_level_in_levels. }
  exists by_level, base. fold by_level. rewrite Hbase. cbn [Py.bind].
  split; [exact Hby|split; reflexivity].
Qed.

Lemma apply_body_state_in_range (p : VoiceSettings) (body : option BodyState) :
  0 <= style p <= 1 -> 0 <= style (apply_body_state p body) <= 1.
Proof.
  intros [Hlo Hhi]. unfold apply_body_state.
  destruct body as [b|]; [|now split].
  destruct (Py.gt (energy b) 0.7).
  - simpl. split; [|apply Qle_trans with 1.0; [apply min_le_l|discriminate]].
    apply min_glb; [discriminate|].
    apply Qmult_le_0_compat; [exact Hlo|discriminate].
  - destruct (Py.lt (energy b) 0.3); [|now split].
    simpl. split.
    + apply Qmult_le_0_compat; [exact Hlo|discriminate].
    + apply Qle_trans with (1 * 0.7); [|discriminate].
      apply Qmult_le_compat_r; [exact Hhi|discriminate].
Qed.

Lemma scaled_down (x : Q) : 0 <= x -> x * 0.7 <= x.
Proof.
  intro Hx. setoid_replace x with (x * 1) at 2 by ring.
  rewrite (Qmult_comm x 0.7), (Qmult_comm x 1).
  apply Qmult_le_compat_r; [discriminate|exact Hx].
Qed.

(** C4. The body-state block runs on the preset the table gave and keeps
    [style] in [[0,1]]: energy above 0.7 multiplies it by 1.2 and caps it at
    1.0, energy below 0.3 multiplies it by 0.7, which lowers it; a base of 0.9
    with energy 1.0 gives exactly 1.0; and the style of every config the
    function returns lies in [[0,1]]. *)
Theorem body_modifiers_clamped :
  (forall p body, 0 <= style p <= 1 -> 0 <= style (apply_body_state p body) <= 1)
  /\ (forall p b, 0.7 < energy b ->
        apply_body_state p (Some b) = set_style p (Py.min 1.0 (style p * 1.2)))
  /\ (forall p b, energy b < 0.3 ->
        apply_body_state p (Some b) = set_style p (style p * 0.7)
        /\ (0 <= style p -> style (apply_body_state p (Some b)) <= style p))
  /\ (forall p b, energy b == 1.0 -> style p == 0.9 ->
        style (apply_body_state p (Some b)) = 1.0)
  /\ (forall state, exists by_level base,
        In by_level (map snd emotion_presets)
        /\ Py.subscript by_level (intensity_level (intensity state)) = Py.Ok base
        /\ generate_elevenlabs_config state
           = Py.Ok {| voice_settings := apply_body_state base (body_state state) |}
        /\ 0 <= style (apply_body_state base (body_state state)) <= 1).
Proof.
  split; [exact apply_body_state_in_range|].
  split; [|split; [|split]].
  - intros p b Hhigh. unfold apply_body_state, Py.gt.
    apply lt_true in Hhigh. now rewrite Hhigh.
  - intros p b Hlow. unfold apply_body_state, Py.gt.
    assert (Hnot : Py.lt 0.7 (energy b) = false).
    { apply lt_false. apply Qlt_le_weak. eapply Qlt_trans; [exact Hlow|reflexivity]. }
    apply lt_true in Hlow. rewrite Hnot, Hlow. split; [reflexivity|].
    simpl. apply scaled_down.
  - intros p b Henergy Hstyle. unfold apply_body_state, Py.gt.
    assert (Hhigh : Py.lt 0.7 (energy b) = true).
    { apply lt_true. rewrite Henergy. reflexivity. }
    rewrite Hhigh. simpl. apply min_l. rewrite Hstyle. discriminate.
  - intro state.
    destruct (generate_elevenlabs_config_returns state) as [by_level [base [Hby [Hbase Hgen]]]].
    exists by_level, base. repeat split; try assumption;
      apply apply_body_state_in_range;
      pose proof (proj1 (Forall_forall _ _) table_styles_in_range by_level Hby) as Hall;
      apply subscript_In in Hbase;
      exact (proj1 (Forall_forall _ _) Hall base Hbase).
Qed.

Lemma body_modifiers_clamped_witness :
  0 <= style (apply_body_state (preset 0.1 0.65 0.9 true)
                (Some {| energy := 1.0; tension := 0.5; valence := 0; arousal := 0.5 |})) <= 1
  /\ style (apply_body_state (preset 0.1 0.65 0.9 true)
              (Some {| energy := 1.0; tension := 0.5; valence := 0; arousal := 0.5 |})) = 1.0
  /\ apply_body_state (preset 0.5 0.75 0.3 false)
       (Some {| energy := 0.1; tension := 0.5; valence := 0; arousal := 0.5 |})
     = set_style (preset 0.5 0.75 0.3 false) (0.3 * 0.7).
Proof.
  destruct body_modifiers_clamped as [Hrange [_ [Hlow [Hexact _]]]].
  split; [|split].
  - apply Hrange. simpl. split; discriminate.
  - apply Hexact; reflexivity.
  - apply Hlow. reflexivity.
Defined.

(** C10. A primary emotion that is none of the seven keys of the table gets
    the neutral presets: the config is the one of the neutral emotion at the
    same intensity and body state, and the function raises for no state. *)
Theorem unmapped_emotion_falls_back :
  (forall state, ~ In (primary_emotion state) mapped_emotions ->
     exists base,
       lookup NEUTRAL (intensity_level (intensity state)) = Py.Ok base
       /\ generate_elevenlabs_config state
          = Py.Ok {| voice_settings := apply_body_state base (body_state state) |}
       /\ generate_elevenlabs_config state
          = generate_elevenlabs_config
              {| primary_emotion := NEUTRAL; intensity := intensity state;
                 body_state := body_state state |})
  /\ (forall state, Py.raises (generate_elevenlabs_config state) = false).
Proof.
  split.
  - intros [e i body] Hunmapped. simpl in *.
    destruct e; try (exfalso; apply Hunmapped; simpl; tauto).
    unfold generate_elevenlabs_config, lookup, intensity_level. simpl.
    destruct (Py.lt i 0.35); [eexists; repeat split|].
    destruct (Py.lt i 0.7); eexists; repeat split.
  - intro state.
    destruct (generate_elevenlabs_config_returns state) as [by_level [base [_ [_ Hgen]]]].
    now rewrite Hgen.
Qed.

Lemma unmapped_emotion_falls_back_witness :
  exists base,
    lookup NEUTRAL "high" = Py.Ok base
    /\ generate_elevenlabs_config
         {| primary_emotion := OTHER "trust"; intensity := 0.9; body_state := None |}
       = Py.Ok {| voice_settings := base |}.
Proof.
  destruct (proj1 unmapped_emotion_falls_back
              {| primary_emotion := OTHER "trust"; intensity := 0.9; body_state := None |})
    as [base [Hbase [Hgen _]]].
  - simpl. intros [H|[H|[H|[H|[H|[H|[H|[]]]]]]]]; discriminate H.
  - exists base. split; [exact Hbase|exact Hgen].
Defined.

End DirectiveTable.

(** ** The frame processor *)

Section FrameProcessor.

Import Emotive.
Local Open Scope nat_scope.

Variable get_emotional_state : nat -> option EmotiveVoiceState.
Variable generate_ssml_prefix : EmotiveVoiceState -> bool -> string.

Local Abbreviation process_frame := (Emotive.process_frame get_emotional_state generate_ssml_prefix).
Local Abbreviation process_frames := (Emotive.process_frames get_emotional_state generate_ssml_prefix).
Local Abbreviation apply_emotion := (Emotive.apply_emotion get_emotional_state generate_ssml_prefix).

Lemma queries_snoc (t : Trace) (e : Effect) :
  queries (t ++ [e]) = queries t + (if is_query e then 1 else 0).
Proof.
  unfold queries. rewrite filter_app, length_app. simpl.
  now destruct (is_query e).
Qed.

Lemma updates_snoc (t : Trace) (e : Effect) :
  updates (t ++ [e]) = updates t + (if is_update e then 1 else 0).
Proof.
  unfold updates. rewrite filter_app, length_app. simpl.
  now destruct (is_update e).
Qed.

(** The number of TTS-config pushes one directive makes. *)
Lemma generate_returns (state : EmotiveVoiceState) :
  exists config, generate_elevenlabs_config state = Py.Ok config.
Proof.
  destruct (generate_elevenlabs_config_returns state) as [by_level [base [_ [_ Hgen]]]].
  eexists. exact Hgen.
Qed.

(** Computing and applying the directive: one request to the source, one push
    to the TTS when a callback is installed, and the flag is set.  It returns
    whether or not the callback raised. *)
Lemma apply_emotion_returns (self : Processor) (t : Trace) (frame : Frame) :
  exists self' t' frame',
    apply_emotion self t frame = Py.Ok (self', t', frame')
    /\ _emotion_applied_for_utterance self' = true
    /\ _update_tts_config self' = _update_tts_config self
    /\ queries t' = S (queries t)
    /\ updates t' = updates t + match _update_tts_config self with Some _ => 1 | None => 0 end.
Proof.
  unfold Emotive.apply_emotion.
  set (state := _get_current_state (get_emotional_state (queries t))).
  destruct (generate_returns state) as [config Hconfig].
  destruct (_update_tts_config self) as [callback|] eqn:Hcallback.
  - rewrite Hconfig. cbn [Py.bind].
    destruct (_log_emotions (set_applied self true) && _) eqn:Hlog;
      do 3 eexists; (split; [reflexivity|]); simpl;
      rewrite ?Hcallback, ?queries_snoc, ?updates_snoc; simpl;
      repeat split; lia.
  - cbn [Py.bind].
    destruct (_log_emotions (set_applied self true) && _) eqn:Hlog;
      do 3 eexists; (split; [reflexivity|]); simpl;
      rewrite ?Hcallback, ?queries_snoc, ?updates_snoc; simpl;
      repeat split; lia.
Qed.

Lemma process_frames_cons
  (self : Processor) (t : Trace) (frame : Frame) (direction : FrameDirection)
  (rest : list (Frame * FrameDirection)) :
  process_frames self t ((frame, direction) :: rest)
  = (r <- process_frame self t frame direction ;; process_frames (fst r) (snd r) rest).
Proof. reflexivity. Qed.

(** The start of a response clears the flag. *)
Lemma start_clears_flag (self : Processor) (t : Trace) :
  process_frame self t LLMFullResponseStartFrame DOWNSTREAM
  = Py.Ok (set_response self true false, t ++ [Pushed LLMFullResponseStartFrame DOWNSTREAM]).
Proof. reflexivity. Qed.

(** The first text frame after the flag was cleared computes the directive. *)
Lemma first_chunk_applies (self : Processor) (t : Trace) (text : string) :
  _emotion_applied_for_utterance self = false ->
  exists self' t',
    process_frame self t (TextFrame text) DOWNSTREAM = Py.Ok (self', t')
    /\ _emotion_applied_for_utterance self' = true
    /\ queries t' = S (queries t)
    /\ updates t' = updates t + match _update_tts_config self with Some _ => 1 | None => 0 end.
Proof.
  intro Hflag. unfold Emotive.process_frame. rewrite Hflag. cbn [negb].
  destruct (apply_emotion_returns self t (TextFrame text))
    as [self1 [t1 [frame1 [Happly [Hset [_ [Hq Hu]]]]]]].
  rewrite Happly. cbn [Py.bind].
  exists self1, (t1 ++ [Pushed frame1 DOWNSTREAM]).
  rewrite queries_snoc, updates_snoc. simpl.
  repeat split; try assumption; lia.
Qed.

(** A text frame that finds the flag set is pushed on and nothing else happens. *)
Lemma later_chunk_is_pushed_unchanged (self : Processor) (t : Trace) (text : string) :
  _emotion_applied_for_utterance self = true ->
  process_frame self t (TextFrame text) DOWNSTREAM
  = Py.Ok (self, t ++ [Pushed (TextFrame text) DOWNSTREAM]).
Proof.
  intro Hflag. unfold Emotive.process_frame. now rewrite Hflag.
Qed.

Lemma later_chunks_compute_nothing (chunks : list string) (self : Processor) (t : Trace) :
  _emotion_applied_for_utterance self = true ->
  exists t',
    process_frames self t (map (fun text => (TextFrame text, DOWNSTREAM)) chunks) = Py.Ok (self, t')
    /\ queries t' = queries t
    /\ updates t' = updates t.
Proof.
  intro Hflag. revert t.
  induction chunks as [|text rest IH]; intro t; simpl.
  - exists t. auto.
  - rewrite (later_chunk_is_pushed_unchanged self t text Hflag). cbn [Py.bind fst snd].
    destruct (IH (t ++ [Pushed (TextFrame text) DOWNSTREAM])) as [t' [Hrun [Hq Hu]]].
    exists t'. rewrite Hrun, Hq, Hu, queries_snoc, updates_snoc. simpl.
    repeat split; lia.
Qed.

(** C1. Over one bot utterance, whatever the number of chunks its text
    arrives in, the emotional state is fetched and the directive computed and
    applied once, on the first chunk: the start of the response clears the
    flag, the first text frame sets it, and the frames after it are pushed on
    with no further computation. *)
Theorem directive_once_per_utterance
  (self : Processor) (t : Trace) (chunks : list string) :
  exists self' t',
    process_frames self t (utterance chunks) = Py.Ok (self', t')
    /\ _emotion_applied_for_utterance self' = negb (Nat.eqb (List.length chunks) 0)
    /\ queries t' = queries t + Nat.min 1 (List.length chunks)
    /\ updates t'
       = updates t + match _update_tts_config self with
                     | Some _ => Nat.min 1 (List.length chunks)
                     | None => 0
                     end.
Proof.
  unfold utterance. rewrite process_frames_cons, start_clears_flag. cbn [Py.bind fst snd].
  set (started := set_response self true false).
  set (t0 := t ++ [Pushed LLMFullResponseStartFrame DOWNSTREAM]).
  assert (Hq0 : queries t0 = queries t) by (unfold t0; rewrite queries_snoc; simpl; lia).
  assert (Hu0 : updates t0 = updates t) by (unfold t0; rewrite updates_snoc; simpl; lia).
  destruct chunks as [|first rest]; cbn [map List.length Nat.eqb negb Nat.min].
  - exists started, t0. rewrite Hq0, Hu0.
    repeat split; try lia. destruct (_update_tts_config self); lia.
  - destruct (first_chunk_applies started t0 first eq_refl)
      as [self1 [t1 [Hfirst [Hflag [Hq1 Hu1]]]]].
    rewrite process_frames_cons, Hfirst. cbn [Py.bind fst snd].
    destruct (later_chunks_compute_nothing rest self1 t1 Hflag) as [t' [Hrun [Hq Hu]]].
    exists self1, t'. rewrite Hrun, Hq, Hu, Hq1, Hu1, Hq0, Hu0.
    change (_update_tts_config started) with (_update_tts_config self).
    repeat split; try assumption; try lia;
      destruct (_update_tts_config self); lia.
Qed.

(** One frame: the directive is computed only when the flag is clear, and
    the flag is cleared only by the start or the end of a response. *)
Lemma process_frame_bound
  (self : Processor) (t : Trace) (frame : Frame) (direction : FrameDirection) :
  exists self1 t1,
    process_frame self t frame direction = Py.Ok (self1, t1)
    /\ queries t1 + (if _emotion_applied_for_utterance self1 then 0 else 1)
       <= queries t + (if _emotion_applied_for_utterance self then 0 else 1)
          + (if is_start_or_end frame then 1 else 0).
Proof.
  unfold Emotive.process_frame.
  destruct direction.
  - destruct frame as [| |text|text|name].
    + do 2 eexists. split; [reflexivity|]. rewrite queries_snoc. simpl.
      destruct (_emotion_applied_for_utterance self); lia.
    + do 2 eexists. split; [reflexivity|]. rewrite queries_snoc. simpl.
      destruct (_emotion_applied_for_utterance self); lia.
    + destruct (_emotion_applied_for_utterance self) eqn:Hflag; cbn [negb].
      * do 2 eexists. split; [reflexivity|].
        rewrite queries_snoc, Hflag. simpl. lia.
      * destruct (apply_emotion_returns self t (TextFrame text))
          as [s1 [t1 [f1 [Happly [Hset [_ [Hq _]]]]]]].
        rewrite Happly. do 2 eexists. split; [reflexivity|].
        rewrite queries_snoc, Hset, Hq. simpl. lia.
    + destruct (_emotion_applied_for_utterance self) eqn:Hflag; cbn [negb].
      * do 2 eexists. split; [reflexivity|].
        rewrite queries_snoc, Hflag. simpl. lia.
      * destruct (apply_emotion_returns self t (TTSTextFrame text))
          as [s1 [t1 [f1 [Happly [Hset [_ [Hq _]]]]]]].
        rewrite Happly. do 2 eexists. split; [reflexivity|].
        rewrite queries_snoc, Hset, Hq. simpl. lia.
    + do 2 eexists. split; [reflexivity|]. rewrite queries_snoc. simpl.
      destruct (_emotion_applied_for_utterance self); lia.
  - do 2 eexists. split; [reflexivity|]. rewrite queries_snoc. simpl.
    destruct (_emotion_applied_for_utterance self), (is_start_or_end frame); lia.
Qed.

(** Over any run of frames, the directive is computed at most once for each
    time the flag was cleared, and once more if the run began with it clear. *)
Lemma directives_bounded_by_resets (frames : list (Frame * FrameDirection)) :
  forall (self : Processor) (t : Trace),
  exists self' t',
    process_frames self t frames = Py.Ok (self', t')
    /\ queries t' + (if _emotion_applied_for_utterance self' then 0 else 1)
       <= queries t + (if _emotion_applied_for_utterance self then 0 else 1)
          + List.length (filter (fun fd => is_start_or_end (fst fd)) frames).
Proof.
  induction frames as [|[frame direction] rest IH]; intros self t.
  - exists self, t. split; [reflexivity|simpl; lia].
  - destruct (process_frame_bound self t frame direction) as [self1 [t1 [Hone Hbound1]]].
    destruct (IH self1 t1) as [self' [t' [Hrun Hbound]]].
    exists self', t'. rewrite process_frames_cons, Hone. cbn [Py.bind fst snd].
    split; [exact Hrun|].
    cbn [filter fst].
    destruct (is_start_or_end frame), (_emotion_applied_for_utterance self),
      (_emotion_applied_for_utterance self1), (_emotion_applied_for_utterance self');
      simpl in *; lia.
Qed.

(** At an intensity of exactly 0.7 sadness gets its high preset (stability
    0.8, style 0.4); the table of test cases in the plan expects the medium one
    (0.7 and 0.3) there. *)
Lemma sadness_at_threshold :
  generate_elevenlabs_config
    {| primary_emotion := SADNESS; intensity := 0.7; body_state := None |}
  = Py.Ok {| voice_settings := preset 0.8 0.85 0.4 false |}.
Proof. reflexivity. Qed.

Lemma neutral_config :
  generate_elevenlabs_config neutral_state
  = Py.Ok {| voice_settings := preset 0.5 0.75 0.0 false |}.
Proof. reflexivity. Qed.

(** C5. When the emotional-state source is unavailable or throws, the first
    text frame of an utterance is processed with a neutral snapshot of
    intensity 0: the config handed to the TTS is the neutral preset, and
    [process_frame] returns, also when the TTS callback itself raises. *)
Theorem neutral_fallback (self : Processor) (t : Trace) (frame : Frame) :
  get_emotional_state (queries t) = None ->
  _emotion_applied_for_utterance self = false ->
  is_text frame = true ->
  let neutral := {| voice_settings := preset 0.5 0.75 0.0 false |} in
  let sent :=
    if _use_ssml self
    then Emotive.with_ssml_prefix generate_ssml_prefix neutral_state (_use_ssml self) frame
    else frame in
  generate_elevenlabs_config (_get_current_state None) = Py.Ok neutral
  /\ exists self',
       process_frame self t frame DOWNSTREAM
       = Py.Ok (self',
                t ++ [Queried neutral_state]
                  ++ match _update_tts_config self with
                     | Some callback => [UpdatedTtsConfig neutral (callback neutral)]
                     | None => []
                     end
                  ++ [Pushed sent DOWNSTREAM])
       /\ _emotion_applied_for_utterance self' = true.
Proof.
  intros Hsource Hflag Htext. cbv zeta. split; [exact neutral_config|].
  assert (Happly :
    exists self',
      apply_emotion self t frame
      = Py.Ok (self',
               (t ++ [Queried neutral_state])
                 ++ match _update_tts_config self with
                    | Some callback =>
                        [UpdatedTtsConfig {| voice_settings := preset 0.5 0.75 0.0 false |}
                           (callback {| voice_settings := preset 0.5 0.75 0.0 false |})]
                    | None => []
                    end,
               if _use_ssml self
               then Emotive.with_ssml_prefix generate_ssml_prefix neutral_state (_use_ssml self) frame
               else frame)
      /\ _emotion_applied_for_utterance self' = true).
  { unfold Emotive.apply_emotion. rewrite Hsource. cbn [_get_current_state].
    destruct (_update_tts_config self) as [callback|].
    - rewrite neutral_config. cbn [Py.bind].
      destruct (_log_emotions (set_applied self true) && _);
        eexists; split; reflexivity.
    - cbn [Py.bind]. rewrite app_nil_r.
      destruct (_log_emotions (set_applied self true) && _);
        eexists; split; reflexivity. }
  destruct Happly as [self' [Happly Hset]].
  exists self'. split; [|exact Hset].
  unfold Emotive.process_frame.
  destruct frame; try discriminate Htext;
    rewrite Hflag; cbn [negb]; rewrite Happly; cbn [Py.bind];
    now rewrite <- !app_assoc.
Qed.

End FrameProcessor.

Lemma neutral_fallback_witness :
  exists self',
    Emotive.process_frame (fun _ => None) (fun _ _ => "")
      {| Emotive._in_llm_response := true;
         Emotive._emotion_applied_for_utterance := false;
         Emotive._last_emotion := None;
         Emotive._use_ssml := false;
         Emotive._log_emotions := true;
         Emotive._update_tts_config := Some (fun _ => false) |}
      [] (Emotive.TextFrame "Hello") Emotive.DOWNSTREAM
    = Py.Ok (self',
             [Emotive.Queried Emotive.neutral_state;
              Emotive.UpdatedTtsConfig
                {| Emotive.voice_settings := Emotive.preset 0.5 0.75 0.0 false |} false;
              Emotive.Pushed (Emotive.TextFrame "Hello") Emotive.DOWNSTREAM])
    /\ Emotive._emotion_applied_for_utterance self' = true.
Proof.
  exact (proj2 (neutral_fallback (fun _ => None) (fun _ _ => "")
                  {| Emotive._in_llm_response := true;
                     Emotive._emotion_applied_for_utterance := false;
                     Emotive._last_emotion := None;
                     Emotive._use_ssml := false;
                     Emotive._log_emotions := true;
                     Emotive._update_tts_config := Some (fun _ => false) |}
                  [] (Emotive.TextFrame "Hello") eq_refl eq_refl eq_refl)).
Defined.

(** ** The ceiling of the self voice *)

Section SelfVoice.

Import Emotive Mapper.
Local Open Scope Q_scope.

Lemma ceiling_of_self (registry : Registry) (profile : VoiceProfile) (level : string) :
  is_self registry profile = true ->
  In level intensity_levels ->
  ceiling registry profile level = "low" \/ ceiling registry profile level = "medium".
Proof.
  intros Hself Hlevel. unfold ceiling. rewrite Hself.
  destruct Hlevel as [<-|[<-|[<-|[]]]]; simpl; auto.
Qed.

Lemma mapped_has_low_and_medium (e : PrimaryEmotion) :
  In e mapped_emotions ->
  exists low medium, lookup e "low" = Py.Ok low /\ lookup e "medium" = Py.Ok medium.
Proof.
  unfold mapped_emotions. intro He.
  repeat (destruct He as [<-|He]; [do 2 eexists; split; reflexivity|]).
  contradiction.
Qed.

(** C9. For the designated self profile the bucket a directive is drawn from
    is low or medium, never high, whatever the intensity of the snapshot; for a
    snapshot of one of the seven emotions the directive is the low or the
    medium entry of the table with the body modifiers applied. *)
Theorem self_voice_never_high
  (registry : Registry) (profile : VoiceProfile) (snapshot : EmotiveVoiceState) :
  is_self registry profile = true ->
  bucket registry profile snapshot <> "high"
  /\ (bucket registry profile snapshot = "low" \/ bucket registry profile snapshot = "medium")
  /\ (In (primary_emotion snapshot) mapped_emotions ->
      exists base,
        (lookup (primary_emotion snapshot) "low" = Py.Ok base
         \/ lookup (primary_emotion snapshot) "medium" = Py.Ok base)
        /\ computeDirective registry snapshot profile
           = Py.Ok (apply_body_state base (body_state snapshot))).
Proof.
  intro Hself.
  pose proof (ceiling_of_self registry profile (intensity_level (intensity snapshot)) Hself
                (intensity_level_in_levels (intensity snapshot))) as Hbucket.
  fold (bucket registry profile snapshot) in Hbucket.
  split; [|split].
  - destruct Hbucket as [-> | ->]; discriminate.
  - exact Hbucket.
  - intro Hmapped. unfold computeDirective.
    destruct (mapped_has_low_and_medium _ Hmapped) as [low [medium [Hl Hm]]].
    destruct Hbucket as [Hlow | Hmedium].
    + exists low. rewrite Hlow, Hl. split; [now left|reflexivity].
    + exists medium. rewrite Hmedium, Hm. split; [now right|reflexivity].
Qed.

(** Another voice is handed the high bucket, and so is every voice by
    [generate_elevenlabs_config], which consults no profile. *)
Lemma other_voice_reaches_high :
  let registry := {| selfId := "ginger"; profiles := [] |} in
  let contact := {| participantId := "+1234567890"; displayName := "Sarah";
                    voiceDescription := "warm"; typicalEmotions := [] |} in
  let angry := {| primary_emotion := ANGER; intensity := 0.9; body_state := None |} in
  bucket registry contact angry = "high"
  /\ generate_elevenlabs_config angry
     = Py.Ok {| voice_settings := preset 0.1 0.65 0.9 true |}.
Proof. split; reflexivity. Qed.

End SelfVoice.

Lemma self_voice_never_high_witness :
  let registry := {| Mapper.selfId := "ginger"; Mapper.profiles := [] |} in
  let ginger := {| Mapper.participantId := "ginger"; Mapper.displayName := "Ginger";
                   Mapper.voiceDescription := "calm"; Mapper.typicalEmotions := [] |} in
  let angry := {| Emotive.primary_emotion := Emotive.ANGER; Emotive.intensity := 0.9;
                  Emotive.body_state := None |} in
  Mapper.bucket registry ginger angry <> "high"
  /\ Mapper.computeDirective registry angry ginger
     = Py.Ok (Emotive.preset 0.2 0.7 0.8 true).
Proof.
  cbv zeta.
  destruct (self_voice_never_high
              {| Mapper.selfId := "ginger"; Mapper.profiles := [] |}
              {| Mapper.participantId := "ginger"; Mapper.displayName := "Ginger";
                 Mapper.voiceDescription := "calm"; Mapper.typicalEmotions := [] |}
              {| Emotive.primary_emotion := Emotive.ANGER; Emotive.intensity := 0.9;
                 Emotive.body_state := None |} eq_refl) as [Hnot [_ Hdirective]].
  split; [exact Hnot|reflexivity].
Defined.

(** ** Trimming *)

Section Trim.

Import Sync.

Lemma trimStart_blank (s : jsstring) : blank s = true -> trimStart s = [].
Proof.
  induction s as [|c rest IH]; simpl; [reflexivity|].
  destruct (isWhiteSpace c); simpl; [exact IH|discriminate].
Qed.

Lemma trimStart_not_blank (s : jsstring) :
  blank s = false ->
  exists c rest, trimStart s = c :: rest /\ isWhiteSpace c = false.
Proof.
  induction s as [|c rest IH]; simpl; [discriminate|].
  destruct (isWhiteSpace c) eqn:Hc; simpl.
  - exact IH.
  - intros _. now exists c, rest.
Qed.

Lemma blank_app (s u : jsstring) : blank (s ++ u) = blank s && blank u.
Proof. apply forallb_app. Qed.

Lemma blank_rev (s : jsstring) : blank (rev s) = blank s.
Proof.
  induction s as [|c rest IH]; simpl; [reflexivity|].
  rewrite blank_app, IH. simpl. rewrite andb_true_r. apply andb_comm.
Qed.

(** A string trims to the empty string exactly when it is all white space. *)
Lemma truthy_trim (s : jsstring) : truthy (trim s) = negb (blank s).
Proof.
  unfold trim, trimEnd. destruct (blank s) eqn:Hblank; simpl.
  - now rewrite (trimStart_blank s Hblank).
  - destruct (trimStart_not_blank s Hblank) as [c [rest [Hstart Hc]]].
    rewrite Hstart.
    assert (Hrev : blank (rev (c :: rest)) = false).
    { rewrite blank_rev. simpl. now rewrite Hc. }
    destruct (trimStart_not_blank _ Hrev) as [d [rest' [Hend _]]].
    rewrite Hend. simpl. now destruct (rev rest').
Qed.

Lemma trim_blank (s : jsstring) : blank s = true -> trim s = [].
Proof.
  intro Hblank. unfold trim, trimEnd. now rewrite (trimStart_blank s Hblank).
Qed.

End Trim.

(** ** The session handlers *)

Section Recording.

Import Sync.

Context {S Lens : Type} `{PipecatStore S}.

(** The user's stop records the trimmed utterance, if anything is left of it. *)
Lemma user_stop_records (app : App S Lens) :
  conversation (handleUserStoppedSpeaking app)
  = conversation app
      ++ (if blank (currentUserUtterance (pipecat app)) then []
          else [{| role := user; content := trim (currentUserUtterance (pipecat app));
                   isVoiceTranscript := Some true; lens := None |}])
  /\ gingerMessages (handleUserStoppedSpeaking app) = gingerMessages app
  /\ activeLenses (handleUserStoppedSpeaking app) = activeLenses app
  /\ voiceState (handleUserStoppedSpeaking app) = processing.
Proof.
  unfold handleUserStoppedSpeaking. rewrite truthy_trim.
  destruct (blank (currentUserUtterance (pipecat app))); simpl;
    rewrite ?app_nil_r; auto.
Qed.

(** The bot's stop records the trimmed response in both stores, if anything
    is left of it. *)
Lemma bot_stop_records (app : App S Lens) :
  conversation (handleBotStoppedSpeaking app)
  = conversation app
      ++ (if blank (currentBotUtterance (pipecat app)) then []
          else [{| role := assistant; content := trim (currentBotUtterance (pipecat app));
                   isVoiceTranscript := None; lens := hd_error (activeLenses app) |}])
  /\ gingerMessages (handleBotStoppedSpeaking app)
     = gingerMessages app
         ++ (if blank (currentBotUtterance (pipecat app)) then []
             else [{| gingerRole := assistant;
                      gingerContent := trim (currentBotUtterance (pipecat app)) |}])
  /\ activeLenses (handleBotStoppedSpeaking app) = activeLenses app
  /\ voiceState (handleBotStoppedSpeaking app) = idle.
Proof.
  unfold handleBotStoppedSpeaking. rewrite truthy_trim.
  destruct (blank (currentBotUtterance (pipecat app))); simpl;
    rewrite ?app_nil_r; auto.
Qed.

(** C7. An utterance that is empty or all white space when the speaker
    stops is not recorded: neither the user's nor the bot's stop hands a
    message to a store. *)
Theorem blank_utterance_is_discarded (app : App S Lens) :
  (blank (currentUserUtterance (pipecat app)) = true ->
   conversation (dispatch app UserStoppedSpeaking) = conversation app
   /\ gingerMessages (dispatch app UserStoppedSpeaking) = gingerMessages app)
  /\ (blank (currentBotUtterance (pipecat app)) = true ->
      conversation (dispatch app BotStoppedSpeaking) = conversation app
      /\ gingerMessages (dispatch app BotStoppedSpeaking) = gingerMessages app).
Proof.
  split; intro Hblank; cbn [dispatch].
  - destruct (user_stop_records app) as [Hconv [Hginger _]].
    rewrite Hconv, Hginger, Hblank, app_nil_r. auto.
  - destruct (bot_stop_records app) as [Hconv [Hginger _]].
    rewrite Hconv, Hginger, Hblank, !app_nil_r. auto.
Qed.

(** C8, as the handler has it. A user stop that finds the user buffer empty or
    all white space hands no message to a store and leaves the lenses alone,
    but it sets the voice state to processing whatever the state was. *)
Theorem stray_user_stop_records_nothing (app : App S Lens) :
  blank (currentUserUtterance (pipecat app)) = true ->
  conversation (dispatch app UserStoppedSpeaking) = conversation app
  /\ gingerMessages (dispatch app UserStoppedSpeaking) = gingerMessages app
  /\ activeLenses (dispatch app UserStoppedSpeaking) = activeLenses app
  /\ voiceState (dispatch app UserStoppedSpeaking) = processing.
Proof.
  intro Hblank. cbn [dispatch].
  destruct (user_stop_records app) as [Hconv [Hginger [Hlenses Hvoice]]].
  rewrite Hconv, Hblank, app_nil_r. auto.
Qed.

End Recording.

Section SpecStoreSession.

Import Sync SpecStore.

Lemma blank_utterance_is_discarded_witness :
  let app : App PipecatState string :=
    {| pipecat := {| isUserSpeaking := true; isBotSpeaking := true;
                     userUtterance := js "   "; botUtterance := [10; 9; 160]%N |};
       voiceState := listening;
       activeLenses := [];
       gingerMessages := [];
       conversation := [] |} in
  conversation (dispatch app UserStoppedSpeaking) = []
  /\ conversation (dispatch app BotStoppedSpeaking) = []
  /\ gingerMessages (dispatch app BotStoppedSpeaking) = [].
Proof.
  intro app.
  destruct (blank_utterance_is_discarded app) as [Huser Hbot].
  split; [|split].
  - exact (proj1 (Huser eq_refl)).
  - exact (proj1 (Hbot eq_refl)).
  - exact (proj2 (Hbot eq_refl)).
Defined.

Lemma stray_user_stop_records_nothing_witness :
  conversation (dispatch initial UserStoppedSpeaking) = []
  /\ gingerMessages (dispatch initial UserStoppedSpeaking) = []
  /\ activeLenses (dispatch initial UserStoppedSpeaking) = []
  /\ voiceState (dispatch initial UserStoppedSpeaking) = processing.
Proof.
  exact (stray_user_stop_records_nothing initial eq_refl).
Defined.

(** Against C8 as stated: after a full turn the session is idle with both
    buffers reset; a user stop received then records nothing, but it is not a
    no-op, the session is left in the processing state. *)
Lemma stray_user_stop_leaves_idle :
  let settled :=
    run [UserStartedSpeaking; UserTranscript (js "hello"); UserStoppedSpeaking;
         BotStartedSpeaking; BotLlmText (js "hi"); BotStoppedSpeaking] initial in
  voiceState settled = idle
  /\ currentUserUtterance (pipecat settled) = []
  /\ conversation (dispatch settled UserStoppedSpeaking) = conversation settled
  /\ voiceState (dispatch settled UserStoppedSpeaking) = processing
  /\ dispatch settled UserStoppedSpeaking <> settled.
Proof.
  cbv zeta.
  split; [reflexivity|]. split; [reflexivity|]. split; [reflexivity|].
  split; [reflexivity|].
  intro Hsame. apply (f_equal voiceState) in Hsame. discriminate Hsame.
Qed.

(** With the store of the spec, a second stop right after a stop changes
    nothing more. *)
Lemma repeated_user_stop {Lens : Type} (app : App PipecatState Lens) :
  dispatch (dispatch app UserStoppedSpeaking) UserStoppedSpeaking
  = dispatch app UserStoppedSpeaking.
Proof.
  cbn [dispatch]. unfold handleUserStoppedSpeaking at 1.
  assert (Hreset : currentUserUtterance (pipecat (handleUserStoppedSpeaking app)) = []).
  { reflexivity. }
  rewrite Hreset. reflexivity.
Qed.

(** A bot text chunk is appended to the buffer, which the bot's start cleared. *)
Lemma bot_text_is_appended {Lens : Type} (text : jsstring) (app : App PipecatState Lens) :
  currentBotUtterance (pipecat (dispatch app (BotLlmText text)))
  = currentBotUtterance (pipecat app) ++ text.
Proof. reflexivity. Qed.

Lemma bot_start_clears {Lens : Type} (app : App PipecatState Lens) :
  currentBotUtterance (pipecat (dispatch app BotStartedSpeaking)) = [].
Proof. reflexivity. Qed.

Lemma bot_chunks_accumulate {Lens : Type} (chunks : list jsstring) :
  forall app : App PipecatState Lens,
    currentBotUtterance (pipecat (run (map BotLlmText chunks) app))
    = currentBotUtterance (pipecat app) ++ List.concat chunks.
Proof.
  induction chunks as [|chunk rest IH]; intro app.
  - simpl. now rewrite app_nil_r.
  - cbn [map List.concat].
    change (run (BotLlmText chunk :: map BotLlmText rest) app)
      with (run (map BotLlmText rest) (dispatch app (BotLlmText chunk))).
    now rewrite IH, bot_text_is_appended, app_assoc.
Qed.

Lemma run_app {Lens : Type} (events events' : list RTVIEvent) (app : App PipecatState Lens) :
  run (events ++ events') app = run events' (run events app).
Proof. unfold run. apply fold_left_app. Qed.

(** Text chunks touch the bot buffer only. *)
Lemma bot_chunks_keep_records {Lens : Type} (chunks : list jsstring) :
  forall app : App PipecatState Lens,
    conversation (run (map BotLlmText chunks) app) = conversation app
    /\ gingerMessages (run (map BotLlmText chunks) app) = gingerMessages app
    /\ activeLenses (run (map BotLlmText chunks) app) = activeLenses app.
Proof.
  induction chunks as [|chunk rest IH]; intro app.
  - simpl. auto.
  - cbn [map].
    change (run (BotLlmText chunk :: map BotLlmText rest) app)
      with (run (map BotLlmText rest) (dispatch app (BotLlmText chunk))).
    destruct (IH (dispatch app (BotLlmText chunk))) as [Hconv [Hginger Hlenses]].
    rewrite Hconv, Hginger, Hlenses. auto.
Qed.

(** A whole bot utterance, in any number of chunks: the concatenation of the
    chunks is recorded once, trimmed, unless it is all white space. *)
Lemma bot_utterance_recorded {Lens : Type} (chunks : list jsstring) (app : App PipecatState Lens) :
  conversation (run (BotStartedSpeaking :: map BotLlmText chunks ++ [BotStoppedSpeaking]) app)
  = conversation app
      ++ (if blank (List.concat chunks) then []
          else [{| role := assistant; content := trim (List.concat chunks);
                   isVoiceTranscript := None; lens := hd_error (activeLenses app) |}]).
Proof.
  change (run (BotStartedSpeaking :: map BotLlmText chunks ++ [BotStoppedSpeaking]) app)
    with (run (map BotLlmText chunks ++ [BotStoppedSpeaking]) (dispatch app BotStartedSpeaking)).
  rewrite run_app.
  change (run [BotStoppedSpeaking] ?x) with (handleBotStoppedSpeaking x).
  destruct (bot_stop_records (run (map BotLlmText chunks) (dispatch app BotStartedSpeaking)))
    as [Hconv _].
  rewrite Hconv, bot_chunks_accumulate, bot_start_clears.
  destruct (bot_chunks_keep_records chunks (dispatch app BotStartedSpeaking))
    as [Hkept [_ Hlenses]].
  rewrite Hkept, Hlenses. reflexivity.
Qed.

(** C6. The bot starts speaking, its text arrives as "Hi" then " there", and
    it stops: one message is handed to the conversation store (and one to the
    Ginger store), with the text "Hi there"; the chunks were appended to a
    buffer that the start had cleared. *)
Theorem bot_utterance_round_trip {Lens : Type} (app : App PipecatState Lens) :
  let app' :=
    run [BotStartedSpeaking; BotLlmText (js "Hi"); BotLlmText (js " there");
         BotStoppedSpeaking] app in
  conversation app'
  = conversation app
      ++ [{| role := assistant; content := js "Hi there";
             isVoiceTranscript := None; lens := hd_error (activeLenses app) |}]
  /\ gingerMessages app'
     = gingerMessages app ++ [{| gingerRole := assistant; gingerContent := js "Hi there" |}]
  /\ currentBotUtterance
       (pipecat (run [BotStartedSpeaking; BotLlmText (js "Hi"); BotLlmText (js " there")] app))
     = js "Hi" ++ js " there"
  /\ currentBotUtterance (pipecat app') = [].
Proof.
  cbv zeta. split; [reflexivity|]. split; [reflexivity|]. split; reflexivity.
Qed.

End SpecStoreSession.

(** ** The boundary cases on binary64 *)

(** Read as doubles, the boundary intensities fall in the same buckets and
    the raised style of 0.9 is 1.0. *)
#[warnings="-inexact-float"]
Lemma binary64_boundaries :
  Binary64.intensity_level 0.35 = "medium"
  /\ Binary64.intensity_level 0.6999 = "medium"
  /\ Binary64.intensity_level 0.7 = "high"
  /\ Binary64.raised_style 0.9 = 1.0%float.
Proof. repeat split; vm_compute; reflexivity. Qed.

(** * Further properties of the code *)

(** ** The settings a state generates *)

Section GeneratedSettings.

Import Emotive.
Local Open Scope Q_scope.

(** Every number of the table lies in [[0,1]]. *)
Lemma table_numbers_in_range :
  Forall (fun by_level =>
            Forall (fun p => 0 <= stability p <= 1
                             /\ 0 <= similarity_boost p <= 1
                             /\ 0 <= style p <= 1)
                   (map snd by_level))
         (map snd emotion_presets).
Proof. repeat constructor; discriminate. Qed.

(** The body-state block leaves the three other keys of a preset alone. *)
Lemma apply_body_state_other_keys (p : VoiceSettings) (body : option BodyState) :
  stability (apply_body_state p body) = stability p
  /\ similarity_boost (apply_body_state p body) = similarity_boost p
  /\ use_speaker_boost (apply_body_state p body) = use_speaker_boost p.
Proof.
  unfold apply_body_state. destruct body as [b|]; [|auto].
  destruct (Py.gt (energy b) 0.7); [simpl; auto|].
  destruct (Py.lt (energy b) 0.3); simpl; auto.
Qed.

(** Whatever the state, the three numbers handed to the TTS are valid
    ElevenLabs settings: stability, similarity boost and style all lie in
    [[0,1]]. *)
Theorem generated_settings_in_unit_range (state : EmotiveVoiceState) :
  exists config,
    generate_elevenlabs_config state = Py.Ok config
    /\ 0 <= stability (voice_settings config) <= 1
    /\ 0 <= similarity_boost (voice_settings config) <= 1
    /\ 0 <= style (voice_settings config) <= 1.
Proof.
  destruct (generate_elevenlabs_config_returns state) as [by_level [base [Hby [Hbase Hgen]]]].
  eexists. split; [exact Hgen|]. cbn [voice_settings].
  pose proof (proj1 (Forall_forall _ _) table_numbers_in_range by_level Hby) as Hall.
  apply subscript_In in Hbase.
  destruct (proj1 (Forall_forall _ _) Hall base Hbase) as [Hstab [Hsim Hstyle]].
  destruct (apply_body_state_other_keys base (body_state state)) as [-> [-> _]].
  split; [exact Hstab|]. split; [exact Hsim|].
  now apply apply_body_state_in_range.
Qed.

(** The body state reaches the style only: two states that differ in their
    body state alone get the same stability, similarity boost and speaker
    boost. *)
Theorem body_state_reaches_style_only
  (emotion : PrimaryEmotion) (i : Q) (body body' : option BodyState) :
  exists config config',
    generate_elevenlabs_config
      {| primary_emotion := emotion; intensity := i; body_state := body |} = Py.Ok config
    /\ generate_elevenlabs_config
         {| primary_emotion := emotion; intensity := i; body_state := body' |} = Py.Ok config'
    /\ stability (voice_settings config) = stability (voice_settings config')
    /\ similarity_boost (voice_settings config) = similarity_boost (voice_settings config')
    /\ use_speaker_boost (voice_settings config) = use_speaker_boost (voice_settings config').
Proof.
  pose proof (generate_elevenlabs_config_returns
                {| primary_emotion := emotion; intensity := i; body_state := body |}) as Hreturns.
  unfold generate_elevenlabs_config in *.
  cbn [primary_emotion intensity body_state] in *.
  destruct (Py.subscript emotion_presets NEUTRAL) as [default|key];
    [|destruct Hreturns as [? [? [_ [_ Hgen]]]]; discriminate Hgen].
  cbn [Py.bind] in *.
  destruct (Py.subscript (Py.get_default emotion_presets emotion default) (intensity_level i))
    as [p|key]; [|destruct Hreturns as [? [? [_ [_ Hgen]]]]; discriminate Hgen].
  cbn [Py.bind]. do 2 eexists. split; [reflexivity|]. split; [reflexivity|].
  cbn [voice_settings].
  destruct (apply_body_state_other_keys p body) as [-> [-> ->]].
  destruct (apply_body_state_other_keys p body') as [-> [-> ->]].
  auto.
Qed.

(** Energy from 0.3 to 0.7, both ends included, changes nothing: the config is
    the one of the same state without a body state, the preset as the table
    has it. *)
Theorem middle_energy_keeps_preset
  (emotion : PrimaryEmotion) (i : Q) (b : BodyState) :
  0.3 <= energy b <= 0.7 ->
  generate_elevenlabs_config
    {| primary_emotion := emotion; intensity := i; body_state := Some b |}
  = generate_elevenlabs_config
      {| primary_emotion := emotion; intensity := i; body_state := None |}.
Proof.
  intros [Hlow Hhigh].
  unfold generate_elevenlabs_config, apply_body_state, Py.gt.
  cbn [primary_emotion intensity body_state].
  apply lt_false in Hlow, Hhigh. now rewrite Hlow, Hhigh.
Qed.

Lemma middle_energy_keeps_preset_witness :
  generate_elevenlabs_config
    {| primary_emotion := JOY; intensity := 0.9;
       body_state := Some {| energy := 0.7; tension := 0; valence := 0; arousal := 0 |} |}
  = Py.Ok {| voice_settings := preset 0.2 0.7 0.8 true |}.
Proof.
  rewrite (middle_energy_keeps_preset JOY 0.9
             {| energy := 0.7; tension := 0; valence := 0; arousal := 0 |}).
  - reflexivity.
  - simpl. split; discriminate.
Defined.

(** The neutral emotion is the baseline voice at every intensity and with
    every body state: stability 0.5, similarity boost 0.75, a style equal to
    0 and no speaker boost. *)
Theorem neutral_is_baseline (i : Q) (body : option BodyState) :
  exists config,
    generate_elevenlabs_config
      {| primary_emotion := NEUTRAL; intensity := i; body_state := body |} = Py.Ok config
    /\ stability (voice_settings config) = 0.5
    /\ similarity_boost (voice_settings config) = 0.75
    /\ style (voice_settings config) == 0
    /\ use_speaker_boost (voice_settings config) = false.
Proof.
  unfold generate_elevenlabs_config, intensity_level.
  cbn [primary_emotion intensity body_state].
  assert (Hbase : forall p, p = preset 0.5 0.75 0.0 false ->
            stability (apply_body_state p body) = 0.5
            /\ similarity_boost (apply_body_state p body) = 0.75
            /\ style (apply_body_state p body) == 0
            /\ use_speaker_boost (apply_body_state p body) = false).
  { intros p ->. unfold apply_body_state. destruct body as [b|]; [|now simpl].
    destruct (Py.gt (energy b) 0.7); [now simpl|].
    destruct (Py.lt (energy b) 0.3); now simpl. }
  destruct (Py.lt i 0.35); [eexists; split; [reflexivity|]; now apply Hbase|].
  destruct (Py.lt i 0.7); eexists; (split; [reflexivity|]); now apply Hbase.
Qed.

End GeneratedSettings.

(** ** The emotion callback of the TTS service *)

Section EmotionCallback.

Import Emotive Bot.
Local Open Scope Q_scope.

(** What the callback makes of a preset. *)
Lemma update_with_preset (c : Config) (tts : TTS) :
  update_tts_emotion (config_dict c) tts
  = {| _stability := PyFloat (stability (voice_settings c));
       _similarity_boost := PyFloat (similarity_boost (voice_settings c));
       _style := PyFloat (style (voice_settings c));
       _use_speaker_boost := PyBool (use_speaker_boost (voice_settings c)) |}.
Proof. reflexivity. Qed.

(** Generating a config and handing it to the callback: whatever the service
    held before, it then holds the four generated settings, the three numbers
    being in [[0,1]]. *)
Theorem callback_installs_generated_settings (state : EmotiveVoiceState) (tts : TTS) :
  exists config,
    generate_elevenlabs_config state = Py.Ok config
    /\ exists stability' similarity' style' boost',
         update_tts_emotion (config_dict config) tts
         = {| _stability := PyFloat stability';
              _similarity_boost := PyFloat similarity';
              _style := PyFloat style';
              _use_speaker_boost := PyBool boost' |}
         /\ voice_settings config = preset stability' similarity' style' boost'
         /\ 0 <= stability' <= 1 /\ 0 <= similarity' <= 1 /\ 0 <= style' <= 1.
Proof.
  destruct (generate_elevenlabs_config_returns state) as [by_level [base [Hby [Hbase Hgen]]]].
  eexists. split; [exact Hgen|].
  set (p := apply_body_state base (body_state state)).
  exists (stability p), (similarity_boost p), (style p), (use_speaker_boost p).
  split; [reflexivity|]. split; [now destruct p|].
  pose proof (proj1 (Forall_forall _ _) table_numbers_in_range by_level Hby) as Hall.
  apply subscript_In in Hbase.
  destruct (proj1 (Forall_forall _ _) Hall base Hbase) as [Hstab [Hsim Hstyle]].
  unfold p.
  destruct (apply_body_state_other_keys base (body_state state)) as [-> [-> _]].
  split; [exact Hstab|]. split; [exact Hsim|].
  now apply apply_body_state_in_range.
Qed.

(** A config with no ["voice_settings"], or with an empty one, changes nothing
    on the service. *)
Theorem callback_ignores_missing_settings (config : Py.dict string Settings) (tts : TTS) :
  Py.get config "voice_settings" = None \/ Py.get config "voice_settings" = Some [] ->
  update_tts_emotion config tts = tts.
Proof.
  unfold update_tts_emotion, Py.get_default. now intros [-> | ->].
Qed.

Lemma callback_ignores_missing_settings_witness :
  update_tts_emotion [("emotion", [("name", PyBool true)])] initial_tts = initial_tts
  /\ update_tts_emotion [("voice_settings", [])] initial_tts = initial_tts.
Proof.
  split.
  - apply callback_ignores_missing_settings. left. reflexivity.
  - apply callback_ignores_missing_settings. right. reflexivity.
Defined.

(** A non-empty ["voice_settings"] overwrites all four attributes: nothing of
    what the service held survives, and a key the dictionary lacks is set to
    its default (0.5, 0.75, 0.0, False), not kept. *)
Theorem callback_resets_missing_keys
  (config : Py.dict string Settings) (voice_settings : Settings) (tts tts' : TTS) :
  Py.get config "voice_settings" = Some voice_settings ->
  voice_settings <> [] ->
  update_tts_emotion config tts = update_tts_emotion config tts'
  /\ (Py.get voice_settings "stability" = None ->
      _stability (update_tts_emotion config tts) = PyFloat 0.5)
  /\ (Py.get voice_settings "similarity_boost" = None ->
      _similarity_boost (update_tts_emotion config tts) = PyFloat 0.75)
  /\ (Py.get voice_settings "style" = None ->
      _style (update_tts_emotion config tts) = PyFloat 0.0)
  /\ (Py.get voice_settings "use_speaker_boost" = None ->
      _use_speaker_boost (update_tts_emotion config tts) = PyBool false).
Proof.
  intros Hget Hnonempty. unfold update_tts_emotion, Py.get_default. rewrite Hget.
  destruct voice_settings as [|entry rest]; [contradiction|]. cbn [truthy].
  split; [reflexivity|]. cbn [_stability _similarity_boost _style _use_speaker_boost].
  repeat split; intros ->; reflexivity.
Qed.

Lemma callback_resets_missing_keys_witness :
  update_tts_emotion [("voice_settings", [("style", PyFloat 0.8)])]
    {| _stability := PyFloat 0.1; _similarity_boost := PyFloat 0.65;
       _style := PyFloat 0.9; _use_speaker_boost := PyBool true |}
  = {| _stability := PyFloat 0.5; _similarity_boost := PyFloat 0.75;
       _style := PyFloat 0.8; _use_speaker_boost := PyBool false |}.
Proof.
  destruct (callback_resets_missing_keys
              [("voice_settings", [("style", PyFloat 0.8)])] [("style", PyFloat 0.8)]
              {| _stability := PyFloat 0.1; _similarity_boost := PyFloat 0.65;
                 _style := PyFloat 0.9; _use_speaker_boost := PyBool true |}
              initial_tts eq_refl) as [Hsame _].
  - discriminate.
  - rewrite Hsame. reflexivity.
Defined.

(** ElevenLabs is chosen exactly when its key is set to a non-empty value,
    whether or not Cartesia's is; Cartesia when only its own is; and a key set
    to the empty string counts as not set. *)
Theorem provider_detection (getenv : string -> option string) :
  (detect_tts_provider getenv = "elevenlabs"
   <-> exists key, getenv "ELEVENLABS_API_KEY" = Some key /\ key <> "")
  /\ (detect_tts_provider getenv = "cartesia"
      <-> (getenv "ELEVENLABS_API_KEY" = None \/ getenv "ELEVENLABS_API_KEY" = Some "")
          /\ exists key, getenv "CARTESIA_API_KEY" = Some key /\ key <> "")
  /\ (detect_tts_provider getenv = "unknown"
      <-> (getenv "ELEVENLABS_API_KEY" = None \/ getenv "ELEVENLABS_API_KEY" = Some "")
          /\ (getenv "CARTESIA_API_KEY" = None \/ getenv "CARTESIA_API_KEY" = Some "")).
Proof.
  assert (Hset : forall v, set_and_not_empty v = true <-> exists key, v = Some key /\ key <> "").
  { intros [s|]; simpl.
    - rewrite negb_true_iff, String.eqb_neq. split.
      + intro Hs. now exists s.
      + intros [key [Heq Hkey]]. now injection Heq as ->.
    - split; [discriminate|]. intros [key [Heq _]]. discriminate Heq. }
  assert (Hunset : forall v, set_and_not_empty v = false <-> v = None \/ v = Some "").
  { intros [s|]; simpl.
    - rewrite negb_false_iff, String.eqb_eq. split.
      + intros ->. now right.
      + intros [Heq|Heq]; [discriminate Heq|now injection Heq].
    - split; [now left|reflexivity]. }
  unfold detect_tts_provider.
  rewrite <- (Hset (getenv "ELEVENLABS_API_KEY")), <- (Hset (getenv "CARTESIA_API_KEY")),
    <- (Hunset (getenv "ELEVENLABS_API_KEY")), <- (Hunset (getenv "CARTESIA_API_KEY")).
  destruct (set_and_not_empty (getenv "ELEVENLABS_API_KEY")),
           (set_and_not_empty (getenv "CARTESIA_API_KEY"));
    repeat split; try discriminate; try reflexivity;
    try (intros [H1 H2]; discriminate); intro Heq; try discriminate Heq.
Qed.

End EmotionCallback.

Lemma provider_detection_witness :
  Bot.detect_tts_provider
    (fun name => if String.eqb name "ELEVENLABS_API_KEY" then Some ""
                 else if String.eqb name "CARTESIA_API_KEY" then Some "sk_car"
                 else None)
  = "cartesia".
Proof.
  apply (proj2 (proj1 (proj2 (provider_detection _)))). split.
  - right. reflexivity.
  - exists "sk_car". split; [reflexivity|discriminate].
Defined.

(** ** Frames through the processor *)

Section FrameForwarding.

Import Emotive Bot.
Local Open Scope nat_scope.

Variable get_emotional_state : nat -> option EmotiveVoiceState.
Variable generate_ssml_prefix : EmotiveVoiceState -> bool -> string.

Local Abbreviation process_frame := (Emotive.process_frame get_emotional_state generate_ssml_prefix).
Local Abbreviation process_frames := (Emotive.process_frames get_emotional_state generate_ssml_prefix).
Local Abbreviation apply_emotion := (Emotive.apply_emotion get_emotional_state generate_ssml_prefix).
Local Abbreviation with_ssml_prefix := (Emotive.with_ssml_prefix generate_ssml_prefix).

Lemma pushed_app (t u : Trace) : pushed (t ++ u) = pushed t ++ pushed u.
Proof. apply flat_map_app. Qed.

Lemma tts_after_app (t u : Trace) (tts : TTS) :
  tts_after (t ++ u) tts = tts_after u (tts_after t tts).
Proof. apply fold_left_app. Qed.

Lemma pushed_cons (e : Effect) (t : Trace) :
  pushed (e :: t)
  = match e with
    | Pushed frame direction => (frame, direction) :: pushed t
    | _ => pushed t
    end.
Proof. now destruct e. Qed.

Lemma pushed_text_chunks (chunks : list string) :
  pushed (map (fun text => Pushed (TextFrame text) DOWNSTREAM) chunks)
  = map (fun text => (TextFrame text, DOWNSTREAM)) chunks.
Proof.
  induction chunks as [|text rest IH]; [reflexivity|].
  cbn [map]. now rewrite pushed_cons, IH.
Qed.

Lemma tts_after_cons (e : Effect) (t : Trace) (tts : TTS) :
  tts_after (e :: t) tts
  = tts_after t match e with
                | UpdatedTtsConfig config _ => update_tts_emotion (config_dict config) tts
                | _ => tts
                end.
Proof. reflexivity. Qed.

Lemma tts_after_text_chunks (chunks : list string) (tts : TTS) :
  tts_after (map (fun text => Pushed (TextFrame text) DOWNSTREAM) chunks) tts = tts.
Proof.
  induction chunks as [|text rest IH]; [reflexivity|].
  cbn [map]. now rewrite tts_after_cons.
Qed.

Lemma process_frames_app (frames frames' : list (Frame * FrameDirection)) :
  forall (self : Processor) (t : Trace),
    process_frames self t (frames ++ frames')
    = (r <- process_frames self t frames ;; process_frames (fst r) (snd r) frames').
Proof.
  induction frames as [|[frame direction] rest IH]; intros self t; [reflexivity|].
  rewrite <- app_comm_cons, !process_frames_cons.
  destruct (process_frame self t frame direction) as [[self1 t1]|key]; [|reflexivity].
  cbn [Py.bind fst snd]. apply IH.
Qed.

(** The guarded block, effect by effect. *)
Lemma apply_emotion_explicit (self : Processor) (t : Trace) (frame : Frame) :
  exists config self',
    generate_elevenlabs_config (_get_current_state (get_emotional_state (queries t)))
    = Py.Ok config
    /\ apply_emotion self t frame
       = Py.Ok (self',
                t ++ Queried (_get_current_state (get_emotional_state (queries t)))
                  :: match _update_tts_config self with
                     | Some callback => [UpdatedTtsConfig config (callback config)]
                     | None => []
                     end,
                if _use_ssml self
                then with_ssml_prefix (_get_current_state (get_emotional_state (queries t)))
                       (_use_ssml self) frame
                else frame)
    /\ _emotion_applied_for_utterance self' = true
    /\ _use_ssml self' = _use_ssml self
    /\ _update_tts_config self' = _update_tts_config self.
Proof.
  unfold Emotive.apply_emotion.
  set (state := _get_current_state (get_emotional_state (queries t))).
  destruct (generate_returns state) as [config Hconfig].
  exists config. rewrite Hconfig.
  destruct (_update_tts_config self) as [callback|] eqn:Hcallback; cbn [Py.bind];
    destruct (_log_emotions (set_applied self true) && _);
    eexists; (split; [reflexivity|]);
    rewrite <- ?app_assoc; cbn [app]; rewrite ?app_nil_r;
    (split; [reflexivity|]); cbn; rewrite ?Hcallback; auto.
Qed.

(** A text frame comes out of the SSML branch as it went in or prefixed. *)
Lemma with_ssml_prefix_forwards
  (state : EmotiveVoiceState) (use_ssml : bool) (frame : Frame) (direction : FrameDirection) :
  forwarded (frame, direction) (with_ssml_prefix state use_ssml frame, direction).
Proof.
  unfold forwarded, Emotive.with_ssml_prefix. cbn [fst snd]. split; [reflexivity|].
  destruct (String.eqb (generate_ssml_prefix state use_ssml) "") eqn:Hempty; [now left|].
  apply String.eqb_neq in Hempty.
  destruct frame as [| |text|text|name]; try (now left); right;
    exists (generate_ssml_prefix state use_ssml); (split; [exact Hempty|]).
  - left. now exists text.
  - right. now exists text.
Qed.

(** One frame in, one frame out. *)
Lemma process_frame_forwards
  (self : Processor) (t : Trace) (frame : Frame) (direction : FrameDirection) :
  exists self1 t1 out,
    process_frame self t frame direction = Py.Ok (self1, t1)
    /\ pushed t1 = pushed t ++ [out]
    /\ forwarded (frame, direction) out
    /\ _use_ssml self1 = _use_ssml self
    /\ (_use_ssml self = false -> out = (frame, direction)).
Proof.
  assert (Hsame : forwarded (frame, direction) (frame, direction)).
  { split; [reflexivity|now left]. }
  assert (Htext : forall self0, self0 = self -> is_text frame = true ->
            _emotion_applied_for_utterance self = false ->
            exists self1 t1 out,
              (r <- apply_emotion self0 t frame ;;
               (let '(self2, t2, frame2) := r in Py.Ok (self2, t2 ++ [Pushed frame2 direction])))
              = Py.Ok (self1, t1)
              /\ pushed t1 = pushed t ++ [out]
              /\ forwarded (frame, direction) out
              /\ _use_ssml self1 = _use_ssml self
              /\ (_use_ssml self = false -> out = (frame, direction))).
  { intros self0 -> _ _.
    destruct (apply_emotion_explicit self t frame) as [config [self' [_ [Happly [_ [Hssml _]]]]]].
    rewrite Happly. cbn [Py.bind]. do 3 eexists. split; [reflexivity|].
    rewrite !pushed_app.
    assert (Hnone : pushed (Queried (_get_current_state (get_emotional_state (queries t)))
                            :: match _update_tts_config self with
                               | Some callback => [UpdatedTtsConfig config (callback config)]
                               | None => []
                               end) = []) by now destruct (_update_tts_config self).
    rewrite Hnone, app_nil_r. split; [reflexivity|].
    destruct (_use_ssml self) eqn:Huse.
    - split; [apply with_ssml_prefix_forwards|]. split; [exact Hssml|discriminate].
    - split; [exact Hsame|]. split; [exact Hssml|reflexivity]. }
  unfold Emotive.process_frame.
  destruct direction;
    [destruct frame as [| |text|text|name];
     try destruct (_emotion_applied_for_utterance self) eqn:Hflag; cbn [negb];
     try (now apply Htext)|];
    do 3 eexists; (split; [reflexivity|]); rewrite pushed_app;
    (split; [reflexivity|]); (split; [exact Hsame|]); split; reflexivity.
Qed.

(** Every frame handed to the processor is pushed on, once, in arrival order
    and in its direction, whatever the mode and the flag: none is dropped,
    duplicated or reordered, a frame that is not text comes out as it went in,
    and a text frame keeps its class and its text, at most behind a prefix. *)
Theorem every_frame_is_forwarded (frames : list (Frame * FrameDirection)) :
  forall (self : Processor) (t : Trace),
  exists self' t' out,
    process_frames self t frames = Py.Ok (self', t')
    /\ pushed t' = pushed t ++ out
    /\ Forall2 forwarded frames out.
Proof.
  induction frames as [|[frame direction] rest IH]; intros self t.
  - exists self, t, []. rewrite app_nil_r. repeat split. constructor.
  - destruct (process_frame_forwards self t frame direction)
      as [self1 [t1 [out1 [Hone [Hpushed [Hforwarded _]]]]]].
    destruct (IH self1 t1) as [self' [t' [out [Hrun [Hrest Hall]]]]].
    exists self', t', (out1 :: out).
    rewrite process_frames_cons, Hone. cbn [Py.bind fst snd].
    split; [exact Hrun|]. split; [|now constructor].
    rewrite Hrest, Hpushed, <- app_assoc. reflexivity.
Qed.

(** In voice-settings mode ([use_ssml] false, as for ElevenLabs) the frames
    pushed on are the frames received, text included: no markup is ever put
    into the text. *)
Theorem voice_settings_mode_keeps_text (frames : list (Frame * FrameDirection)) :
  forall (self : Processor) (t : Trace),
  _use_ssml self = false ->
  exists self' t',
    process_frames self t frames = Py.Ok (self', t')
    /\ pushed t' = pushed t ++ frames.
Proof.
  induction frames as [|[frame direction] rest IH]; intros self t Hmode.
  - exists self, t. now rewrite app_nil_r.
  - destruct (process_frame_forwards self t frame direction)
      as [self1 [t1 [out1 [Hone [Hpushed [_ [Hssml Hout]]]]]]].
    rewrite (Hout Hmode) in Hpushed.
    destruct (IH self1 t1) as [self' [t' [Hrun Hrest]]]; [now rewrite Hssml|].
    exists self', t'.
    rewrite process_frames_cons, Hone. cbn [Py.bind fst snd].
    split; [exact Hrun|].
    rewrite Hrest, Hpushed, <- app_assoc. reflexivity.
Qed.

(** Frames travelling upstream go through untouched and touch nothing: the
    processor's attributes stay as they are and the emotional state is not
    fetched. *)
Theorem upstream_frames_pass_through (frames : list Frame) :
  forall (self : Processor) (t : Trace),
    process_frames self t (map (fun frame => (frame, UPSTREAM)) frames)
    = Py.Ok (self, t ++ map (fun frame => Pushed frame UPSTREAM) frames).
Proof.
  induction frames as [|frame rest IH]; intros self t.
  - simpl. now rewrite app_nil_r.
  - cbn [map]. rewrite process_frames_cons.
    unfold Emotive.process_frame at 1. cbn [Py.bind fst snd].
    rewrite IH, <- app_assoc. reflexivity.
Qed.

(** Text frames that find the flag set, effect by effect. *)
Lemma later_chunks_explicit (chunks : list string) (self : Processor) :
  _emotion_applied_for_utterance self = true ->
  forall t : Trace,
    process_frames self t (map (fun text => (TextFrame text, DOWNSTREAM)) chunks)
    = Py.Ok (self, t ++ map (fun text => Pushed (TextFrame text) DOWNSTREAM) chunks).
Proof.
  intro Hflag. induction chunks as [|text rest IH]; intro t.
  - simpl. now rewrite app_nil_r.
  - cbn [map]. rewrite process_frames_cons, (later_chunk_is_pushed_unchanged get_emotional_state generate_ssml_prefix self t text Hflag).
    cbn [Py.bind fst snd]. rewrite IH, <- app_assoc. reflexivity.
Qed.

(** One utterance of at least one chunk, effect by effect. *)
Lemma utterance_explicit (self : Processor) (t : Trace) (first : string) (rest : list string) :
  exists config self',
    generate_elevenlabs_config (_get_current_state (get_emotional_state (queries t)))
    = Py.Ok config
    /\ process_frames self t (utterance (first :: rest))
       = Py.Ok (self',
                t ++ Pushed LLMFullResponseStartFrame DOWNSTREAM
                  :: Queried (_get_current_state (get_emotional_state (queries t)))
                  :: match _update_tts_config self with
                     | Some callback => [UpdatedTtsConfig config (callback config)]
                     | None => []
                     end
                  ++ Pushed (if _use_ssml self
                             then with_ssml_prefix
                                    (_get_current_state (get_emotional_state (queries t)))
                                    (_use_ssml self) (TextFrame first)
                             else TextFrame first) DOWNSTREAM
                  :: map (fun text => Pushed (TextFrame text) DOWNSTREAM) rest)
    /\ _emotion_applied_for_utterance self' = true
    /\ _use_ssml self' = _use_ssml self
    /\ _update_tts_config self' = _update_tts_config self.
Proof.
  unfold utterance. cbn [map].
  rewrite process_frames_cons, start_clears_flag. cbn [Py.bind fst snd].
  rewrite process_frames_cons. unfold Emotive.process_frame at 1.
  cbn [_emotion_applied_for_utterance set_response negb].
  destruct (apply_emotion_explicit (set_response self true false)
              (t ++ [Pushed LLMFullResponseStartFrame DOWNSTREAM]) (TextFrame first))
    as [config [self' [Hconfig [Happly [Hflag [Hssml Hcallback]]]]]].
  assert (Hq : queries (t ++ [Pushed LLMFullResponseStartFrame DOWNSTREAM]) = queries t).
  { rewrite queries_snoc. simpl. lia. }
  rewrite Hq in Hconfig, Happly.
  exists config, self'. split; [exact Hconfig|].
  rewrite Happly. cbn [Py.bind fst snd].
  rewrite (later_chunks_explicit rest self' Hflag).
  cbn [_use_ssml _update_tts_config set_response] in *.
  split; [|auto].
  rewrite <- !app_assoc. cbn [app]. reflexivity.
Qed.

(** In SSML mode the prefix goes on the first chunk of an utterance and on no
    other: the chunks after it are pushed on as they came. *)
Theorem ssml_prefix_on_first_chunk_only
  (self : Processor) (t : Trace) (first : string) (rest : list string) :
  _use_ssml self = true ->
  exists self' t',
    process_frames self t (utterance (first :: rest)) = Py.Ok (self', t')
    /\ pushed t'
       = pushed t
           ++ (LLMFullResponseStartFrame, DOWNSTREAM)
           :: (with_ssml_prefix (_get_current_state (get_emotional_state (queries t)))
                 true (TextFrame first), DOWNSTREAM)
           :: map (fun text => (TextFrame text, DOWNSTREAM)) rest.
Proof.
  intro Hmode.
  destruct (utterance_explicit self t first rest) as [config [self' [_ [Hrun _]]]].
  rewrite Hmode in Hrun. do 2 eexists. split; [exact Hrun|].
  rewrite pushed_app. f_equal.
  destruct (_update_tts_config self); cbn [app];
    rewrite !pushed_cons, pushed_text_chunks; reflexivity.
Qed.

(** With the callback installed, once an utterance has gone through, the TTS
    service holds the settings generated from the emotional state fetched on
    its first chunk, whatever it held before and however many chunks followed. *)
Theorem tts_follows_first_chunk
  (self : Processor) (t : Trace) (first : string) (rest : list string)
  (callback : Config -> bool) (tts : TTS) :
  _update_tts_config self = Some callback ->
  exists config self' t',
    generate_elevenlabs_config (_get_current_state (get_emotional_state (queries t)))
    = Py.Ok config
    /\ process_frames self t (utterance (first :: rest)) = Py.Ok (self', t')
    /\ tts_after t' tts
       = {| _stability := PyFloat (stability (voice_settings config));
            _similarity_boost := PyFloat (similarity_boost (voice_settings config));
            _style := PyFloat (style (voice_settings config));
            _use_speaker_boost := PyBool (use_speaker_boost (voice_settings config)) |}.
Proof.
  intro Hcallback.
  destruct (utterance_explicit self t first rest) as [config [self' [Hconfig [Hrun _]]]].
  rewrite Hcallback in Hrun. exists config. do 2 eexists.
  split; [exact Hconfig|]. split; [exact Hrun|].
  rewrite tts_after_app. cbn [app].
  rewrite !tts_after_cons, tts_after_text_chunks.
  apply update_with_preset.
Qed.

(** The end of a response clears the flag. *)
Lemma end_clears_flag (self : Processor) (t : Trace) :
  process_frames self t [(LLMFullResponseEndFrame, DOWNSTREAM)]
  = Py.Ok (set_response self false false, t ++ [Pushed LLMFullResponseEndFrame DOWNSTREAM]).
Proof. reflexivity. Qed.

(** A whole response: the directive is computed if it has text, and its end
    leaves the flag clear for the next one. *)
Lemma response_counts (chunks : list string) (self : Processor) (t : Trace) :
  exists self' t',
    process_frames self t (response chunks) = Py.Ok (self', t')
    /\ queries t' = queries t + Nat.min 1 (List.length chunks)
    /\ updates t' = updates t + match _update_tts_config self with
                                | Some _ => Nat.min 1 (List.length chunks)
                                | None => 0
                                end
    /\ _emotion_applied_for_utterance self' = false
    /\ _in_llm_response self' = false
    /\ _update_tts_config self' = _update_tts_config self.
Proof.
  unfold response. rewrite process_frames_app.
  unfold utterance. rewrite process_frames_cons, start_clears_flag. cbn [Py.bind fst snd].
  set (started := set_response self true false).
  set (t0 := t ++ [Pushed LLMFullResponseStartFrame DOWNSTREAM]).
  assert (Hq0 : queries t0 = queries t) by (unfold t0; rewrite queries_snoc; simpl; lia).
  assert (Hu0 : updates t0 = updates t) by (unfold t0; rewrite updates_snoc; simpl; lia).
  destruct chunks as [|first rest]; cbn [map List.length Nat.min].
  - change (process_frames started t0 []) with (Py.Ok (started, t0)).
    cbn [Py.bind fst snd]. rewrite end_clears_flag.
    do 2 eexists. split; [reflexivity|].
    rewrite queries_snoc, updates_snoc, Hq0, Hu0. simpl.
    repeat split; try lia. destruct (_update_tts_config self); lia.
  - destruct (first_chunk_applies get_emotional_state generate_ssml_prefix started t0 first eq_refl)
      as [self1 [t1 [Hfirst [Hflag [Hq1 Hu1]]]]].
    assert (Hcallback : _update_tts_config self1 = _update_tts_config self).
    { revert Hfirst. unfold Emotive.process_frame. cbn [negb started set_response
        _emotion_applied_for_utterance].
      destruct (apply_emotion_explicit started t0 (TextFrame first))
        as [config [self2 [_ [Happly [_ [_ Hsame]]]]]].
      rewrite Happly. cbn [Py.bind]. intro Heq. injection Heq as <- _. exact Hsame. }
    rewrite process_frames_cons, Hfirst. cbn [Py.bind fst snd].
    destruct (later_chunks_compute_nothing get_emotional_state generate_ssml_prefix rest self1 t1 Hflag) as [t2 [Hrun [Hq Hu]]].
    rewrite Hrun. cbn [Py.bind fst snd]. rewrite end_clears_flag.
    do 2 eexists. split; [reflexivity|].
    rewrite queries_snoc, updates_snoc, Hq, Hu, Hq1, Hu1, Hq0, Hu0.
    change (_update_tts_config started) with (_update_tts_config self).
    cbn [set_response _emotion_applied_for_utterance _in_llm_response _update_tts_config
         is_query is_update].
    repeat split; try lia; try exact Hcallback;
      destruct (_update_tts_config self); lia.
Qed.

(** Over a session of responses, each with its start, its chunks and its end,
    the emotional state is fetched and the directive computed once for each
    response that has text, and never for one that has none. *)
Theorem one_directive_per_response (responses : list (list string)) :
  forall (self : Processor) (t : Trace),
  exists self' t',
    process_frames self t (session responses) = Py.Ok (self', t')
    /\ queries t'
       = queries t
         + List.length (filter (fun chunks => negb (Nat.eqb (List.length chunks) 0)) responses)
    /\ updates t'
       = updates t
         + match _update_tts_config self with
           | Some _ =>
               List.length
                 (filter (fun chunks => negb (Nat.eqb (List.length chunks) 0)) responses)
           | None => 0
           end.
Proof.
  induction responses as [|chunks rest IH]; intros self t.
  - exists self, t. split; [reflexivity|].
    simpl. destruct (_update_tts_config self); lia.
  - unfold session. cbn [flat_map]. rewrite process_frames_app.
    destruct (response_counts chunks self t)
      as [self1 [t1 [Hone [Hq1 [Hu1 [_ [_ Hcallback]]]]]]].
    rewrite Hone. cbn [Py.bind fst snd].
    destruct (IH self1 t1) as [self' [t' [Hrun [Hq Hu]]]].
    exists self', t'. split; [exact Hrun|].
    rewrite Hq, Hu, Hq1, Hu1, Hcallback. cbn [filter].
    destruct chunks as [|first more]; cbn [List.length Nat.eqb negb Nat.min];
      destruct (_update_tts_config self); simpl; lia.
Qed.

End FrameForwarding.

Lemma voice_settings_mode_keeps_text_witness :
  exists self' t',
    Emotive.process_frames (fun _ => None) (fun _ _ => "<sigh>")
      {| Emotive._in_llm_response := false;
         Emotive._emotion_applied_for_utterance := false;
         Emotive._last_emotion := None;
         Emotive._use_ssml := false;
         Emotive._log_emotions := true;
         Emotive._update_tts_config := Some (fun _ => true) |}
      [] (Emotive.utterance ["Hi"; " there"])
    = Py.Ok (self', t')
    /\ Bot.pushed t' = Bot.pushed [] ++ Emotive.utterance ["Hi"; " there"].
Proof.
  apply (voice_settings_mode_keeps_text (fun _ => None) (fun _ _ => "<sigh>")).
  reflexivity.
Defined.

Lemma ssml_prefix_on_first_chunk_only_witness :
  exists self' t',
    Emotive.process_frames (fun _ => None) (fun _ _ => "<sigh>")
      {| Emotive._in_llm_response := false;
         Emotive._emotion_applied_for_utterance := false;
         Emotive._last_emotion := None;
         Emotive._use_ssml := true;
         Emotive._log_emotions := true;
         Emotive._update_tts_config := None |}
      [] (Emotive.utterance ["Hi"; " there"])
    = Py.Ok (self', t')
    /\ Bot.pushed t'
       = [(Emotive.LLMFullResponseStartFrame, Emotive.DOWNSTREAM);
          (Emotive.TextFrame "<sigh> Hi", Emotive.DOWNSTREAM);
          (Emotive.TextFrame " there", Emotive.DOWNSTREAM)].
Proof.
  apply (ssml_prefix_on_first_chunk_only (fun _ => None) (fun _ _ => "<sigh>")
           {| Emotive._in_llm_response := false;
              Emotive._emotion_applied_for_utterance := false;
              Emotive._last_emotion := None;
              Emotive._use_ssml := true;
              Emotive._log_emotions := true;
              Emotive._update_tts_config := None |}
           [] "Hi" [" there"]).
  reflexivity.
Defined.

Lemma tts_follows_first_chunk_witness :
  exists config self' t',
    Emotive.generate_elevenlabs_config
      {| Emotive.primary_emotion := Emotive.ANGER; Emotive.intensity := 0.9%Q;
         Emotive.body_state := None |} = Py.Ok config
    /\ Emotive.process_frames
         (fun _ => Some {| Emotive.primary_emotion := Emotive.ANGER;
                           Emotive.intensity := 0.9%Q; Emotive.body_state := None |})
         (fun _ _ => "")
         {| Emotive._in_llm_response := false;
            Emotive._emotion_applied_for_utterance := true;
            Emotive._last_emotion := None;
            Emotive._use_ssml := false;
            Emotive._log_emotions := false;
            Emotive._update_tts_config := Some (fun _ => true) |}
         [] (Emotive.utterance ["Stop"; " it"])
       = Py.Ok (self', t')
    /\ Bot.tts_after t' Bot.initial_tts
       = {| Bot._stability := Bot.PyFloat (Emotive.stability (Emotive.voice_settings config));
            Bot._similarity_boost :=
              Bot.PyFloat (Emotive.similarity_boost (Emotive.voice_settings config));
            Bot._style := Bot.PyFloat (Emotive.style (Emotive.voice_settings config));
            Bot._use_speaker_boost :=
              Bot.PyBool (Emotive.use_speaker_boost (Emotive.voice_settings config)) |}.
Proof.
  apply (tts_follows_first_chunk
           (fun _ => Some {| Emotive.primary_emotion := Emotive.ANGER;
                             Emotive.intensity := 0.9%Q; Emotive.body_state := None |})
           (fun _ _ => "")
           {| Emotive._in_llm_response := false;
              Emotive._emotion_applied_for_utterance := true;
              Emotive._last_emotion := None;
              Emotive._use_ssml := false;
              Emotive._log_emotions := false;
              Emotive._update_tts_config := Some (fun _ => true) |}
           [] "Stop" [" it"] (fun _ => true) Bot.initial_tts).
  reflexivity.
Defined.

(** ** The audio-level logger *)

Section AudioLevelLog.

Import AudioLevel.

Lemma last_nonempty {A : Type} (l : list A) (d d' : A) :
  l <> [] -> last l d = last l d'.
Proof.
  induction l as [|a rest IH]; [contradiction|]. intros _.
  destruct rest as [|b more]; [reflexivity|].
  change (last (b :: more) d = last (b :: more) d'). apply IH. discriminate.
Qed.

Lemma spaced_snoc (times : list Z) :
  forall (previous time : Z),
    spaced previous times ->
    (500 < time - last times previous)%Z ->
    spaced previous (times ++ [time]).
Proof.
  induction times as [|first rest IH]; intros previous time Hspaced Hgap.
  - simpl in *. auto.
  - destruct Hspaced as [Hfirst Hrest]. split; [exact Hfirst|].
    apply IH; [exact Hrest|].
    destruct rest as [|second more]; [exact Hgap|].
    rewrite (last_nonempty (second :: more) first previous); [exact Hgap|discriminate].
Qed.

(** What one call keeps true of the logger. *)
Lemma handleAudioLevel_keeps (logger : Logger) (call : Q * Z) :
  spaced 0 (map fst (lines logger)) ->
  Forall (fun line => (0.01 < snd line)%Q) (lines logger) ->
  lastLogTime logger = last (map fst (lines logger)) 0%Z ->
  spaced 0 (map fst (lines (handleAudioLevel logger call)))
  /\ Forall (fun line => (0.01 < snd line)%Q) (lines (handleAudioLevel logger call))
  /\ lastLogTime (handleAudioLevel logger call)
     = last (map fst (lines (handleAudioLevel logger call))) 0%Z
  /\ (List.length (lines (handleAudioLevel logger call)) <= S (List.length (lines logger)))%nat
  /\ (exists more, lines (handleAudioLevel logger call) = lines logger ++ more).
Proof.
  intros Hspaced Hlevels Hlast. destruct call as [level now]. unfold handleAudioLevel.
  destruct (Py.gt level 0.01) eqn:Hlevel; cbn [andb];
    [destruct (Z.ltb 500 (now - lastLogTime logger)) eqn:Hgap|].
  - cbn [lines lastLogTime]. rewrite map_app, length_app. cbn [map fst List.length].
    apply Z.ltb_lt in Hgap. apply lt_true in Hlevel.
    split; [apply spaced_snoc; [exact Hspaced|now rewrite <- Hlast]|].
    split; [apply Forall_app; split; [exact Hlevels|now constructor]|].
    split; [now rewrite last_last|].
    split; [lia|]. now exists [(now, level)].
  - repeat split; auto. exists []. now rewrite app_nil_r.
  - repeat split; auto. exists []. now rewrite app_nil_r.
Qed.

(** The audio level is logged at most once in any 500 ms and only above 0.01:
    each line is more than 500 ms after the line before it, the level of each
    line is above 0.01, and [lastLogTime] is the time of the last line. *)
Theorem audio_level_log_is_throttled (calls : list (Q * Z)) :
  spaced 0 (map fst (lines (handleAudioLevels calls start)))
  /\ Forall (fun line => (0.01 < snd line)%Q) (lines (handleAudioLevels calls start))
  /\ lastLogTime (handleAudioLevels calls start)
     = last (map fst (lines (handleAudioLevels calls start))) 0%Z
  /\ (List.length (lines (handleAudioLevels calls start)) <= List.length calls)%nat.
Proof.
  assert (Hany : forall logger,
            spaced 0 (map fst (lines logger)) ->
            Forall (fun line => (0.01 < snd line)%Q) (lines logger) ->
            lastLogTime logger = last (map fst (lines logger)) 0%Z ->
            spaced 0 (map fst (lines (handleAudioLevels calls logger)))
            /\ Forall (fun line => (0.01 < snd line)%Q) (lines (handleAudioLevels calls logger))
            /\ lastLogTime (handleAudioLevels calls logger)
               = last (map fst (lines (handleAudioLevels calls logger))) 0%Z
            /\ (List.length (lines (handleAudioLevels calls logger))
                <= List.length (lines logger) + List.length calls)%nat).
  { induction calls as [|call rest IH]; intros logger Hspaced Hlevels Hlast.
    - simpl. repeat split; auto. lia.
    - destruct (handleAudioLevel_keeps logger call Hspaced Hlevels Hlast)
        as [Hspaced1 [Hlevels1 [Hlast1 [Hlength1 _]]]].
      destruct (IH (handleAudioLevel logger call) Hspaced1 Hlevels1 Hlast1)
        as [Hs [Hl [Ht Hn]]].
      change (handleAudioLevels (call :: rest) logger)
        with (handleAudioLevels rest (handleAudioLevel logger call)).
      repeat split; auto. cbn [List.length]. lia. }
  apply (Hany start); [exact I|constructor|reflexivity].
Qed.

End AudioLevelLog.

(** ** What the session handlers record *)

Section TrimmedText.

Import Sync History.

Lemma trimStart_hd (s : jsstring) : isWhiteSpace (hd 0%N (trimStart s)) = false.
Proof.
  induction s as [|c rest IH]; [reflexivity|].
  simpl. destruct (isWhiteSpace c) eqn:Hc; [exact IH|exact Hc].
Qed.

Lemma trimStart_suffix (s : jsstring) :
  exists pre, s = pre ++ trimStart s /\ blank pre = true.
Proof.
  induction s as [|c rest IH]; [now exists []|].
  simpl. destruct (isWhiteSpace c) eqn:Hc.
  - destruct IH as [pre [Heq Hpre]]. exists (c :: pre). split.
    + simpl. now rewrite <- Heq.
    + simpl. now rewrite Hc.
  - now exists [].
Qed.

Lemma last_rev {A : Type} (l : list A) (d : A) : last (rev l) d = hd d l.
Proof. destruct l as [|a rest]; [reflexivity|]. simpl. apply last_last. Qed.

Lemma hd_rev {A : Type} (l : list A) (d : A) : hd d (rev l) = last l d.
Proof. rewrite <- (rev_involutive l) at 2. now rewrite last_rev. Qed.

Lemma last_suffix {A : Type} (pre w : list A) (d : A) :
  w <> [] -> last (pre ++ w) d = last w d.
Proof.
  intro Hw. induction pre as [|a rest IH]; [reflexivity|].
  simpl. destruct (rest ++ w) eqn:Heq; [|exact IH].
  apply app_eq_nil in Heq. destruct Heq as [_ Heq]. contradiction.
Qed.

(** What is cut off a text by [trim] is white space, on both sides. *)
Lemma trim_decomposition (s : jsstring) :
  exists pre post, s = pre ++ trim s ++ post /\ blank pre = true /\ blank post = true.
Proof.
  unfold trim, trimEnd.
  destruct (trimStart_suffix s) as [pre [Hs Hpre]].
  destruct (trimStart_suffix (rev (trimStart s))) as [post [Hrev Hpost]].
  exists pre, (rev post). split; [|split].
  - rewrite <- rev_app_distr, <- Hrev, rev_involutive. exact Hs.
  - exact Hpre.
  - now rewrite blank_rev.
Qed.

(** The text left by [trim] neither starts nor ends with white space. *)
Lemma trim_ends (s : jsstring) :
  isWhiteSpace (hd 0%N (trim s)) = false /\ isWhiteSpace (last (trim s) 0%N) = false.
Proof.
  unfold trim, trimEnd. split.
  - rewrite hd_rev.
    destruct (trimStart (rev (trimStart s))) as [|d rest] eqn:Hw; [reflexivity|].
    destruct (trimStart_suffix (rev (trimStart s))) as [pre [Hrev _]].
    rewrite Hw in Hrev.
    assert (Hlast : last (d :: rest) 0%N = last (rev (trimStart s)) 0%N).
    { rewrite Hrev. symmetry. apply last_suffix. discriminate. }
    rewrite Hlast, last_rev. apply trimStart_hd.
  - rewrite last_rev. apply trimStart_hd.
Qed.

Lemma trim_clean (s : jsstring) : blank s = false -> clean (trim s) = true.
Proof.
  intro Hblank. unfold clean.
  destruct (trim_ends s) as [-> ->].
  now rewrite truthy_trim, Hblank.
Qed.

End TrimmedText.

Section Histories.

Import Sync History.
Local Open Scope nat_scope.

Context {S Lens : Type} `{PipecatStore S}.

Lemma run_cons (event : RTVIEvent) (events : list RTVIEvent) (app : App S Lens) :
  run (event :: events) app = run events (dispatch app event).
Proof. reflexivity. Qed.

Lemma run_append (events events' : list RTVIEvent) (app : App S Lens) :
  run (events ++ events') app = run events' (run events app).
Proof. unfold run. apply fold_left_app. Qed.

(** What one event records. *)
Lemma dispatch_records (app : App S Lens) (event : RTVIEvent) :
  exists added,
    conversation (dispatch app event) = conversation app ++ added
    /\ gingerMessages (dispatch app event) = gingerMessages app ++ assistantMessages added
    /\ activeLenses (dispatch app event) = activeLenses app
    /\ Forall (fun m => clean (content m) = true /\ shaped (activeLenses app) m) added
    /\ List.length added <= (if is_stop event then 1 else 0).
Proof.
  assert (Hnothing : forall app' : App S Lens,
            conversation app' = conversation app ->
            gingerMessages app' = gingerMessages app ->
            activeLenses app' = activeLenses app ->
            exists added,
              conversation app' = conversation app ++ added
              /\ gingerMessages app' = gingerMessages app ++ assistantMessages added
              /\ activeLenses app' = activeLenses app
              /\ Forall (fun m => clean (content m) = true /\ shaped (activeLenses app) m) added
              /\ List.length added <= 0).
  { intros app' Hc Hg Hl. exists []. rewrite !app_nil_r. repeat split; auto. }
  destruct event; cbn [dispatch is_stop];
    try (destruct (Hnothing _ eq_refl eq_refl eq_refl) as [added [Hc [Hg [Hl [Hf Hn]]]]];
         exists added; repeat split; auto; lia).
  - destruct (user_stop_records app) as [Hconv [Hginger [Hlenses _]]].
    destruct (blank (currentUserUtterance (pipecat app))) eqn:Hblank.
    + exists []. rewrite Hconv, Hginger, !app_nil_r. repeat split; auto.
    + eexists. split; [exact Hconv|]. cbn [assistantMessages flat_map role].
      rewrite app_nil_r. split; [exact Hginger|]. split; [exact Hlenses|].
      split; [|simpl; lia].
      constructor; [|constructor]. cbn [content].
      split; [now apply trim_clean|]. now split.
  - destruct (bot_stop_records app) as [Hconv [Hginger [Hlenses _]]].
    destruct (blank (currentBotUtterance (pipecat app))) eqn:Hblank.
    + exists []. rewrite Hconv, Hginger, !app_nil_r. repeat split; auto.
    + eexists. split; [exact Hconv|]. cbn [assistantMessages flat_map role content List.app].
      split; [exact Hginger|]. split; [exact Hlenses|].
      split; [|simpl; lia].
      constructor; [|constructor]. cbn [content].
      split; [now apply trim_clean|]. now split.
Qed.

Lemma assistantMessages_app (a b : list (ConversationMessage Lens)) :
  assistantMessages (a ++ b) = assistantMessages a ++ assistantMessages b.
Proof. apply flat_map_app. Qed.

(** What a run of events records. *)
Lemma run_records (events : list RTVIEvent) :
  forall app : App S Lens,
  exists added,
    conversation (run events app) = conversation app ++ added
    /\ gingerMessages (run events app) = gingerMessages app ++ assistantMessages added
    /\ activeLenses (run events app) = activeLenses app
    /\ Forall (fun m => clean (content m) = true /\ shaped (activeLenses app) m) added
    /\ List.length added <= List.length (filter is_stop events).
Proof.
  induction events as [|event rest IH]; intro app.
  - exists []. rewrite !app_nil_r. repeat split; auto.
  - rewrite run_cons.
    destruct (dispatch_records app event) as [first [Hc1 [Hg1 [Hl1 [Hf1 Hn1]]]]].
    destruct (IH (dispatch app event)) as [more [Hc [Hg [Hl [Hf Hn]]]]].
    exists (first ++ more).
    rewrite Hc, Hg, Hl, Hc1, Hg1, Hl1, assistantMessages_app, <- !app_assoc.
    repeat split; auto.
    + apply Forall_app. split; [exact Hf1|]. now rewrite Hl1 in Hf.
    + rewrite length_app. cbn [filter]. destruct (is_stop event); simpl in *; lia.
Qed.

(** The histories only grow, and only by stops: whatever the events and
    whatever the store does, the messages recorded before are still there, in
    their order, with at most one new message for each stop event after them,
    and the active lenses are left as they were. *)
Theorem histories_grow_by_stops (events : list RTVIEvent) (app : App S Lens) :
  exists added mirrored,
    conversation (run events app) = conversation app ++ added
    /\ gingerMessages (run events app) = gingerMessages app ++ mirrored
    /\ activeLenses (run events app) = activeLenses app
    /\ List.length mirrored <= List.length added
    /\ List.length added <= List.length (filter is_stop events).
Proof.
  destruct (run_records events app) as [added [Hc [Hg [Hl [_ Hn]]]]].
  exists added, (assistantMessages added). repeat split; auto.
  clear. induction added as [|m rest IH]; [simpl; lia|].
  cbn [assistantMessages flat_map]. rewrite length_app.
  fold (assistantMessages rest). destruct (role m); simpl; lia.
Qed.

(** Nothing empty and nothing untrimmed is ever recorded: every message a run
    adds has a text with something in it and no white space at either end; a
    user's message is flagged as a voice transcript and has no lens, the
    assistant's carries the first active lens. *)
Theorem recorded_messages_are_clean (events : list RTVIEvent) (app : App S Lens) :
  exists added,
    conversation (run events app) = conversation app ++ added
    /\ Forall (fun m => clean (content m) = true /\ shaped (activeLenses app) m) added.
Proof.
  destruct (run_records events app) as [added [Hc [_ [_ [Hf _]]]]].
  now exists added.
Qed.

(** The Ginger store gets the assistant's messages and nothing else: what a
    run adds to it is, text for text and in the same order, what the run adds
    to the conversation under the assistant's role. *)
Theorem ginger_store_mirrors_assistant (events : list RTVIEvent) (app : App S Lens) :
  exists added,
    conversation (run events app) = conversation app ++ added
    /\ gingerMessages (run events app) = gingerMessages app ++ assistantMessages added.
Proof.
  destruct (run_records events app) as [added [Hc [Hg _]]].
  now exists added.
Qed.

(** [BotTranscript] events count for nothing: a run gives the same stores with
    or without them, so the bot's text is taken from [BotLlmText] alone. *)
Theorem bot_transcript_is_ignored (events : list RTVIEvent) :
  forall app : App S Lens,
    run events app = run (filter (fun event => negb (is_bot_transcript event)) events) app.
Proof.
  induction events as [|event rest IH]; intro app; [reflexivity|].
  cbn [filter]. destruct event; cbn [is_bot_transcript negb]; rewrite ?run_cons;
    apply IH.
Qed.

(** A stop that finds text in the buffer records it once, without the white
    space around it: the user's as a voice transcript in the conversation
    alone, the bot's in the conversation and in the Ginger store. *)
Theorem nonblank_utterance_is_recorded (app : App S Lens) :
  (blank (currentUserUtterance (pipecat app)) = false ->
   exists pre text post,
     currentUserUtterance (pipecat app) = pre ++ text ++ post
     /\ blank pre = true /\ blank post = true /\ clean text = true
     /\ conversation (dispatch app UserStoppedSpeaking)
        = conversation app
            ++ [{| role := user; content := text;
                   isVoiceTranscript := Some true; lens := None |}]
     /\ gingerMessages (dispatch app UserStoppedSpeaking) = gingerMessages app)
  /\ (blank (currentBotUtterance (pipecat app)) = false ->
      exists pre text post,
        currentBotUtterance (pipecat app) = pre ++ text ++ post
        /\ blank pre = true /\ blank post = true /\ clean text = true
        /\ conversation (dispatch app BotStoppedSpeaking)
           = conversation app
               ++ [{| role := assistant; content := text;
                      isVoiceTranscript := None; lens := hd_error (activeLenses app) |}]
        /\ gingerMessages (dispatch app BotStoppedSpeaking)
           = gingerMessages app ++ [{| gingerRole := assistant; gingerContent := text |}]).
Proof.
  split; intro Hblank; cbn [dispatch].
  - destruct (trim_decomposition (currentUserUtterance (pipecat app)))
      as [pre [post [Heq [Hpre Hpost]]]].
    exists pre, (trim (currentUserUtterance (pipecat app))), post.
    destruct (user_stop_records app) as [Hconv [Hginger _]].
    rewrite Hconv, Hginger, Hblank.
    repeat split; auto. now apply trim_clean.
  - destruct (trim_decomposition (currentBotUtterance (pipecat app)))
      as [pre [post [Heq [Hpre Hpost]]]].
    exists pre, (trim (currentBotUtterance (pipecat app))), post.
    destruct (bot_stop_records app) as [Hconv [Hginger _]].
    rewrite Hconv, Hginger, Hblank.
    repeat split; auto. now apply trim_clean.
Qed.

Lemma voice_state_kept (events : list RTVIEvent) :
  forall app : App S Lens,
    forallb (fun event => negb (sets_voice_state event)) events = true ->
    voiceState (run events app) = voiceState app.
Proof.
  induction events as [|event rest IH]; intros app Hnone; [reflexivity|].
  cbn [forallb] in Hnone. apply andb_true_iff in Hnone. destruct Hnone as [Hevent Hrest].
  rewrite run_cons, (IH _ Hrest).
  destruct event; try discriminate Hevent; reflexivity.
Qed.

(** The voice state is the one set by the last event that sets it: listening
    after the user started, processing after the user stopped, idle after the
    bot stopped.  The bot's start and the text events never change it, so it
    stays processing all the while the bot speaks. *)
Theorem voice_state_follows_last_setter
  (before after : list RTVIEvent) (event : RTVIEvent) (app : App S Lens) :
  sets_voice_state event = true ->
  forallb (fun e => negb (sets_voice_state e)) after = true ->
  voiceState (run (before ++ event :: after) app)
  = match event with
    | UserStartedSpeaking => listening
    | UserStoppedSpeaking => processing
    | _ => idle
    end.
Proof.
  intros Hsets Hafter.
  rewrite run_append, run_cons, (voice_state_kept after _ Hafter).
  destruct event; try discriminate Hsets; cbn [dispatch].
  - reflexivity.
  - now destruct (user_stop_records (run before app)) as [_ [_ [_ Hvoice]]].
  - now destruct (bot_stop_records (run before app)) as [_ [_ [_ Hvoice]]].
Qed.

End Histories.

Lemma nonblank_utterance_is_recorded_witness :
  let app : Sync.App SpecStore.PipecatState string :=
    {| Sync.pipecat :=
         {| SpecStore.isUserSpeaking := true; SpecStore.isBotSpeaking := true;
            SpecStore.userUtterance := Sync.js "  hello ";
            SpecStore.botUtterance := Sync.js " hi there" |};
       Sync.voiceState := Sync.listening;
       Sync.activeLenses := ["damasio"];
       Sync.gingerMessages := [];
       Sync.conversation := [] |} in
  (exists text, History.clean text = true
     /\ Sync.conversation (Sync.dispatch app Sync.UserStoppedSpeaking)
        = [{| Sync.role := Sync.user; Sync.content := text;
              Sync.isVoiceTranscript := Some true; Sync.lens := None |}])
  /\ (exists text, History.clean text = true
        /\ Sync.gingerMessages (Sync.dispatch app Sync.BotStoppedSpeaking)
           = [{| Sync.gingerRole := Sync.assistant; Sync.gingerContent := text |}]).
Proof.
  intro app. destruct (nonblank_utterance_is_recorded app) as [Huser Hbot]. split.
  - destruct (Huser eq_refl) as [pre [text [post [_ [_ [_ [Hclean [Hconv _]]]]]]]].
    exists text. split; [exact Hclean|exact Hconv].
  - destruct (Hbot eq_refl) as [pre [text [post [_ [_ [_ [Hclean [_ Hginger]]]]]]]].
    exists text. split; [exact Hclean|exact Hginger].
Defined.

Lemma voice_state_follows_last_setter_witness :
  Sync.voiceState
    (Sync.run ([Sync.UserStartedSpeaking; Sync.UserTranscript (Sync.js "hello")]
                 ++ Sync.UserStoppedSpeaking
                 :: [Sync.BotStartedSpeaking; Sync.BotLlmText (Sync.js "hi")])
       SpecStore.initial)
  = Sync.processing.
Proof.
  apply (voice_state_follows_last_setter
           [Sync.UserStartedSpeaking; Sync.UserTranscript (Sync.js "hello")]
           [Sync.BotStartedSpeaking; Sync.BotLlmText (Sync.js "hi")]
           Sync.UserStoppedSpeaking SpecStore.initial); reflexivity.
Defined.

(** ** Registering and unregistering the handlers *)

Section ListenerCleanup.

Import Listeners.

Lemma off_same (event : RTVIEvent) (handler : nat * Handler) (client : Client) :
  off event handler (on event handler client) = client.
Proof.
  unfold off, on. rewrite rev_app_distr. cbn [rev List.app remove_first].
  destruct (Listener_eq_dec (event, handler) (event, handler)) as [_|Hdiff];
    [apply rev_involutive|contradiction].
Qed.

Lemma off_other (event event' : RTVIEvent) (handler handler' : nat * Handler) (client : Client) :
  (event, handler) <> (event', handler') ->
  off event handler (on event' handler' client) = on event' handler' (off event handler client).
Proof.
  intro Hdiff. unfold off, on. rewrite rev_app_distr. cbn [rev List.app remove_first].
  destruct (Listener_eq_dec (event, handler) (event', handler')) as [Heq|_];
    [contradiction|reflexivity].
Qed.

Lemma off_absent (event : RTVIEvent) (handler : nat * Handler) (client : Client) :
  ~ In (event, handler) client -> off event handler client = client.
Proof.
  intro Habsent. unfold off.
  assert (Hrev : ~ In (event, handler) (rev client)) by now rewrite <- in_rev.
  assert (Hkeep : forall l, ~ In (event, handler) l -> remove_first (event, handler) l = l).
  { induction l as [|y rest IH]; [reflexivity|]. intro Hnot. cbn [remove_first].
    destruct (Listener_eq_dec (event, handler) y) as [Heq|_];
      [exfalso; apply Hnot; left; now symmetry|].
    rewrite IH; [reflexivity|]. intro Hin. apply Hnot. now right. }
  rewrite (Hkeep _ Hrev). apply rev_involutive.
Qed.

Lemma cleanup_undoes_setup_any (n : nat) (client : Client) :
  cleanup n (setup n client) = client.
Proof.
  unfold cleanup, setup. cbv zeta.
  repeat (rewrite off_same || (rewrite off_other by (intro Hsame; discriminate Hsame))).
  reflexivity.
Qed.

(** The cleanup the effect returns takes off every listener the effect put on
    and no other: mounting and unmounting the hook any number of times leaves
    the client with the listeners it had before. *)
Theorem cleanup_undoes_setup (runs : list nat) (client : Client) :
  fold_left (fun c n => cleanup n (setup n c)) runs client = client.
Proof.
  induction runs as [|n rest IH]; [reflexivity|].
  cbn [fold_left]. now rewrite cleanup_undoes_setup_any.
Qed.

(** Two runs of the effect on one client, as when the hook is mounted twice:
    the cleanup of the earlier run takes off its own listeners from under
    those of the later run, which all stay on. *)
Theorem cleanup_leaves_later_listeners (n m : nat) (client : Client) :
  n <> m ->
  cleanup n (setup m (setup n client)) = setup m client.
Proof.
  intro Hruns. unfold cleanup. unfold setup at 1. cbv zeta.
  assert (Hpast : forall event handler event' handler' c,
            off event (n, handler) (on event' (m, handler') c)
            = on event' (m, handler') (off event (n, handler) c)).
  { intros. apply off_other. congruence. }
  rewrite !Hpast.
  fold (cleanup n (setup n client)). fold (setup m (cleanup n (setup n client))).
  now rewrite cleanup_undoes_setup_any.
Qed.

End ListenerCleanup.

Lemma cleanup_leaves_later_listeners_witness :
  Listeners.cleanup 1 (Listeners.setup 2 (Listeners.setup 1 [])) = Listeners.setup 2 [].
Proof.
  apply cleanup_leaves_later_listeners. discriminate.
Defined.
